(** * pixel-letter: the pixel-text renderer of [pixel_app.py]

    A shallow embedding of [text_to_true_pixel_art] and of the download
    file name derivation of the Streamlit script, together with the
    properties of the renderer that its specification states.

    The script talks to two libraries.  Streamlit is modelled by the
    notices it is asked to show; Pillow is an interface ([Pillow] below)
    whose operations may raise, as the Python ones do.  Every library call
    and every notice is appended to a trace, so that statements such as
    "does no further work" can be read off the trace. *)

From Stdlib.Strings Require Import String Ascii Byte.
From Stdlib Require Import ZArith List Bool Lia QArith DecimalString.
Import ListNotations.
Local Open Scope Z_scope.

(** ** Python strings *)

(** A Python [str] is a sequence of Unicode code points. *)
Definition str := list N.

(** A string literal of the script. *)
Definition lit (s : string) : str :=
  map N_of_ascii (list_ascii_of_string s).

Definition str_eqb (s t : str) : bool :=
  (length s =? length t)%nat && forallb (fun p => N.eqb (fst p) (snd p)) (combine s t).

(** [os.path.basename] (posix flavour): what follows the last slash. *)
Definition basename (p : str) : str :=
  fold_left (fun acc c => if N.eqb c 47 then [] else acc ++ [c]) p [].

(** ** Colours and images *)

(** An RGBA quadruple: four independent 8-bit channels. *)
Definition RGBA := (byte * byte * byte * byte)%type.

(** [item[3]] *)
Definition alpha (item : RGBA) : N :=
  let '(_, _, _, a) := item in Byte.to_N a.

(** The configuration constants of the script. *)
Definition DEFAULT_FONT_FILENAME : str := lit "C&C Red Alert [INET].ttf".
Definition DEFAULT_FONT_SIZE : Z := 30.
Definition DEFAULT_TEXT_COLOR : RGBA := (x00, x00, x00, xff).
Definition DEFAULT_BG_COLOR : RGBA := (x00, x00, x00, x00).

(** A [PIL.Image.Image] in mode RGBA: its size (width, height) and its
    pixels in row-major order, top-left first. *)
Record Image := mkImage { size : Z * Z; pixels : list RGBA }.

Definition width (img : Image) : Z := fst (size img).
Definition height (img : Image) : Z := snd (size img).

(** ** Exceptions, results and the trace *)

(** The Python exception classes that matter here.  [IOError] is Python 3's
    alias of [OSError]. *)
Inductive exn := IOError | AttributeError | ValueError | TypeError | MemoryError.

Definition exn_eqb (a b : exn) : bool :=
  match a, b with
  | IOError, IOError | AttributeError, AttributeError
  | ValueError, ValueError | TypeError, TypeError
  | MemoryError, MemoryError => true
  | _, _ => false
  end.

(** What a call gives back: a value, or an exception. *)
Inductive outcome (A : Type) := Return (a : A) | Raise (e : exn).
Arguments Return {A} a.
Arguments Raise {A} e.

(** The calls the renderer makes into Pillow. *)
Inductive pillow_call :=
| ImageFont_truetype_call (font_path : str) (font_size : Z)
| Image_new_call (sz : Z * Z) (color : RGBA)
| textbbox_call (xy : Z * Z) (text : str)
| textlength_call (text : str)
| getmetrics_call
| draw_text_call (xy : Z * Z) (text : str) (fill : RGBA)
| getdata_call
| putdata_call (n : nat).

(** What an observer of one run sees, in order. *)
Inductive event :=
| Called (c : pillow_call)
| St_error (msg : str)
| St_warning (msg : str).

Definition trace := list event.

(** A Streamlit notice is the only thing the user sees besides the image. *)
Definition is_notice (ev : event) : bool :=
  match ev with Called _ => false | _ => true end.

Definition is_drawing (ev : event) : bool :=
  match ev with Called (draw_text_call _ _ _) => true | _ => false end.

(** ** The monad of a Python function body

    A statement either falls through to the next one with a value, leaves
    the function with [return], or raises. *)
Inductive flow (R A : Type) :=
| Next (a : A)
| Returned (r : R)
| Raised (e : exn).
Arguments Next {R A} a.
Arguments Returned {R A} r.
Arguments Raised {R A} e.

Definition M (R A : Type) := trace -> flow R A * trace.

Definition ret {R A} (a : A) : M R A := fun t => (Next a, t).

Definition bind {R A B} (m : M R A) (k : A -> M R B) : M R B :=
  fun t =>
    match m t with
    | (Next a, t') => k a t'
    | (Returned r, t') => (Returned r, t')
    | (Raised e, t') => (Raised e, t')
    end.

Declare Scope py_scope.
Delimit Scope py_scope with py.
Notation "x <- c ;; k" := (bind c (fun x => k))
  (at level 61, c at next level, right associativity) : py_scope.
Notation "c ;; k" := (bind c (fun _ => k))
  (at level 61, right associativity) : py_scope.
Local Open Scope py_scope.

(** [return r] *)
Definition return_ {R A} (r : R) : M R A := fun t => (Returned r, t).

(** A library call: logged, then its outcome. *)
Definition call {R A} (c : pillow_call) (o : outcome A) : M R A :=
  fun t =>
    (match o with Return a => Next a | Raise e => Raised e end, t ++ [Called c]).

(** [st.error(msg)] and [st.warning(msg)] *)
Definition st_error {R} (msg : str) : M R unit :=
  fun t => (Next tt, t ++ [St_error msg]).
Definition st_warning {R} (msg : str) : M R unit :=
  fun t => (Next tt, t ++ [St_warning msg]).

(** [try: body  except E: handler].  Only an exception of class [E] raised
    by [body] reaches the handler; a [return] inside [body] leaves the
    function, and what [handler] raises is not caught here. *)
Definition try_except {R A} (body : M R A) (E : exn) (handler : M R A) : M R A :=
  fun t =>
    match body t with
    | (Raised e, t') => if exn_eqb e E then handler t' else (Raised e, t')
    | r => r
    end.

(** A function call as its caller sees it. *)
Definition def_ {R} (body : M R R) (t : trace) : outcome R * trace :=
  match body t with
  | (Next r, t') => (Return r, t')
  | (Returned r, t') => (Return r, t')
  | (Raised e, t') => (Raise e, t')
  end.

(** ** Pillow *)

(** The part of Pillow the renderer needs.  [draw_text] is
    [ImageDraw.text]: Python mutates the image in place, here the new
    image is returned, and [draw_text_inplace] records that drawing cannot
    resize the buffer.

    [refuses] tells which sizes [Image.new] cannot allocate on this
    machine, and with which exception ([MemoryError] and the like).  A
    single pixel can always be allocated ([refuses_1x1]), and an image
    that [ImageDraw.text] has drawn on exists, so that its size was not
    refused ([draw_text_allocated]). *)
Record Pillow := {
  Font : Type;
  truetype : str -> Z -> outcome Font;
  textbbox : Font -> Z * Z -> str -> outcome (Z * Z * Z * Z);
  textlength : Font -> str -> outcome Q;
  getmetrics : Font -> outcome (Z * Z);
  draw_text : Font -> Z * Z -> str -> RGBA -> Image -> outcome Image;
  draw_text_inplace : forall f xy s c img img',
      draw_text f xy s c img = Return img' ->
      size img' = size img /\ length (pixels img') = length (pixels img);
  refuses : Z * Z -> option exn;
  refuses_1x1 : refuses (1, 1) = None;
  draw_text_allocated : forall f xy s c img img',
      draw_text f xy s c img = Return img' -> refuses (size img) = None
}.

(** [int(x)] of a float: truncation towards zero. *)
Definition int (x : Q) : Z := Z.quot (Qnum x) (Zpos (Qden x)).

(** [Image.new("RGBA", size, color)]: Pillow refuses a negative size, and
    a size it cannot allocate. *)
Definition Image_new (lib : Pillow) (sz : Z * Z) (color : RGBA) : outcome Image :=
  let '(w, h) := sz in
  if (w <? 0) || (h <? 0) then Raise ValueError
  else
    match refuses lib sz with
    | Some e => Raise e
    | None => Return (mkImage sz (repeat color (Z.to_nat (w * h))))
    end.

(** [img.getdata()] *)
Definition getdata (img : Image) : list RGBA := pixels img.

(** [img.putdata(data)]: the pixels are overwritten from the first one on;
    here [data] always has one entry per pixel. *)
Definition putdata (img : Image) (data : list RGBA) : Image :=
  mkImage (size img)
          (firstn (length (pixels img)) (data ++ skipn (length data) (pixels img))).

(** ** The notices of the renderer *)

(** Line 39: the f-string of [st.error] after a failed font load. *)
Definition font_not_found_msg (font_path : str) : str :=
  lit "Error: Font file not found at '" ++ font_path
  ++ lit "'. Make sure '" ++ basename font_path
  ++ lit "' is in the same directory as the script.".

(** Line 52. *)
Definition fallback_msg : str :=
  lit "Using fallback for text dimension calculation (older Pillow?). Layout might be less precise.".

(** Line 61. *)
Definition no_dimensions_msg : str :=
  lit "Cannot determine text dimensions with this Pillow version.".

(** Line 69: the f-string of [st.warning] for a degenerate extent. *)
Definition degenerate_msg (text : str) : str :=
  lit "Text '" ++ text
  ++ lit "' rendered with zero width or height. Generating 1x1 empty image.".

(** ** The renderer, lines 14 to 89 *)

Section Renderer.

Variable lib : Pillow.

(** The quantization loop, lines 81 to 86:
    [for item in img_data: new_data.append(...)]. *)
Definition quantize (text_color bg_color : RGBA) (img_data : list RGBA) : list RGBA :=
  fold_left
    (fun new_data item =>
       if (0 <? alpha item)%N then new_data ++ [text_color]
       else new_data ++ [bg_color])
    img_data [].

Definition text_to_true_pixel_art_body
    (text font_path : str) (font_size : Z) (text_color bg_color : RGBA)
  : M (option Image) (option Image) :=
  (* --- Font Loading --- *)
  font <- try_except
            (call (ImageFont_truetype_call font_path font_size)
                  (truetype lib font_path font_size))
            IOError
            (st_error (font_not_found_msg font_path) ;;
             return_ None) ;;
  (* --- Determine Text Dimensions --- *)
  (* [dummy_draw] wraps [dummy_img]; measuring does not look at its pixels *)
  dummy_img <- call (Image_new_call (1, 1) (x00, x00, x00, x00))
                    (Image_new lib (1, 1) (x00, x00, x00, x00)) ;;
  bbox <- try_except
            (call (textbbox_call (0, 0) text) (textbbox lib font (0, 0) text))
            AttributeError
            (st_warning fallback_msg ;;
             try_except
               (text_length <- call (textlength_call text) (textlength lib font text) ;;
                let text_width := int text_length in
                metrics <- call getmetrics_call (getmetrics lib font) ;;
                let '(ascent, descent) := metrics in
                let text_height := ascent + descent in
                ret (0, 0, text_width, text_height))
               AttributeError
               (st_error no_dimensions_msg ;;
                return_ None)) ;;
  let '(bbox0, bbox1, bbox2, bbox3) := bbox in
  let text_width := bbox2 - bbox0 in
  let text_height := bbox3 - bbox1 in
  if (text_width <=? 0) || (text_height <=? 0) then
    st_warning (degenerate_msg text) ;;
    img <- call (Image_new_call (1, 1) bg_color) (Image_new lib (1, 1) bg_color) ;;
    return_ (Some img)
  else
    (* --- Create Final Image and Draw Text --- *)
    img <- call (Image_new_call (text_width, text_height) bg_color)
                (Image_new lib (text_width, text_height) bg_color) ;;
    img <- call (draw_text_call (- bbox0, - bbox1) text text_color)
                (draw_text lib font (- bbox0, - bbox1) text text_color img) ;;
    (* --- Ensure Pure Pixels --- *)
    img_data <- call getdata_call (Return (getdata img)) ;;
    let new_data := quantize text_color bg_color img_data in
    img <- call (putdata_call (length new_data)) (Return (putdata img new_data)) ;;
    return_ (Some img).

(** The function as its caller sees it: [Return (Some img)] is the image,
    [Return None] is Python's [None], [Raise e] an exception that leaves
    the function. *)
Definition text_to_true_pixel_art
    (text font_path : str) (font_size : Z) (text_color bg_color : RGBA)
  : trace -> outcome (option Image) * trace :=
  def_ (text_to_true_pixel_art_body text font_path font_size text_color bg_color).

End Renderer.

(** ** Character classes *)

(** [c.isalnum()] on the ASCII range: digits and letters. *)
Definition ascii_isalnum (c : N) : bool :=
  ((48 <=? c) && (c <=? 57) || (65 <=? c) && (c <=? 90) || (97 <=? c) && (c <=? 122))%N.

(** ** The download file name, lines 165 to 169 *)

Section Filename.

(** [str.isalnum] beyond ASCII is a table of the Unicode character
    database; it is left open here. *)
Variable unicode_isalnum : N -> bool.

(** [c.isalnum()] *)
Definition isalnum (c : N) : bool :=
  if (c <? 128)%N then ascii_isalnum c else unicode_isalnum c.

Definition underscore : N := 95.

(** [s.rstrip("_")]: going from the right, an underscore is dropped as
    long as everything after it has been dropped. *)
Definition rstrip_underscore (s : str) : str :=
  fold_right
    (fun c kept =>
       match kept with
       | [] => if (c =? underscore)%N then [] else [c]
       | _ :: _ => c :: kept
       end)
    [] s.

(** [c if c.isalnum() else "_"] *)
Definition keep_or_underscore (c : N) : N :=
  if isalnum c then c else underscore.

Definition safe_filename (text_input : str) : str :=
  let safe_filename :=
    rstrip_underscore (map keep_or_underscore (firstn 20 text_input)) in
  match safe_filename with
  | [] => lit "pixel_text"
  | _ :: _ => safe_filename
  end.

(** The rule as the specification words it: replace every character that
    is not alphanumeric, keep what comes from the first 20 characters of
    the source, trim the underscores at the end, fall back to the default
    name when nothing is left. *)
Definition safe_filename_spec (text_input : str) : str :=
  let replaced := map keep_or_underscore text_input in
  let truncated := firstn 20 replaced in
  let trimmed := rstrip_underscore truncated in
  if (length trimmed =? 0)%nat then lit "pixel_text" else trimmed.

(** [file_name=f"{safe_filename}.png"] *)
Definition file_name (text_input : str) : str :=
  safe_filename text_input ++ lit ".png".

End Filename.

(** ** The script around the renderer, lines 94 to 184 *)

(** [s.rstrip(ch)] for a single character. *)
Definition rstrip_char (ch : N) (s : str) : str :=
  fold_right
    (fun c kept =>
       match kept with
       | [] => if (c =? ch)%N then [] else [c]
       | _ :: _ => c :: kept
       end)
    [] s.

(** [os.path.dirname] (posix flavour): with [i] just after the last slash,
    [p[:i]] without its trailing slashes, unless it is made of slashes
    only.  [basename p] is [p[i:]]. *)
Definition dirname (p : str) : str :=
  let i := (length p - length (basename p))%nat in
  let head := firstn i p in
  match head with
  | [] => head
  | _ :: _ => if forallb (N.eqb 47) head then head else rstrip_char 47 head
  end.

(** [b.startswith("/")] and [a.endswith("/")]. *)
Definition startswith_sep (b : str) : bool :=
  match b with
  | c :: _ => (c =? 47)%N
  | [] => false
  end.

Definition endswith_sep (a : str) : bool :=
  match a with
  | [] => false
  | _ :: _ => (last a 0 =? 47)%N
  end.

(** [os.path.join(a, b)] (posix flavour): an absolute [b] replaces [a];
    otherwise the two are glued, with a slash unless [a] is empty or ends
    with one. *)
Definition os_path_join (a b : str) : str :=
  if startswith_sep b then b
  else if (length a =? 0)%nat || endswith_sep a then a ++ b
  else a ++ 47%N :: b.

(** [str(n)] of an integer, as an f-string prints it. *)
Definition str_of_int (n : Z) : str :=
  lit (NilZero.string_of_int (Z.to_int n)).

(** What the script finds around it: its own path, the file system, what
    the text box holds when the script runs, and Pillow's PNG encoder
    ([pixel_image.save(buf, format="PNG")], then [buf.getvalue()]). *)
Record Host := {
  file__ : str;
  os_path_exists : str -> bool;
  text_box : str;
  save_png : Image -> outcome (list byte)
}.

(** What the script puts on the page, in order.  [Rendering ev] is an
    event of the renderer: its calls into Pillow and its own notices. *)
Inductive widget :=
| Set_page_config (page_title layout : str)
| Title (body : str)
| Write (body : str)
| Error (body : str)
| Stop
| Text_input (label value : str)
| Rendering (ev : event)
| Subheader (body : str)
| Image_shown (image : Image) (caption use_container_width output_format : str)
| Download_button (label : str) (data : list byte) (file_name mime : str)
| Info (body : str)
| Markdown (body : str)
| Caption (body : str).

(** How a run of the script ends: at its last line, at [st.stop()], or
    with an exception that nothing in the script catches. *)
Inductive ending := Finished | Stopped | Aborted (e : exn).

Section Script.

Variable unicode_isalnum : N -> bool.
Variable host : Host.
Variable lib : Pillow.

(** Lines 94 to 99. *)
Definition page_header : list widget :=
  [Set_page_config (lit "Pixel Text Generator") (lit "centered");
   Title ([128126%N; 32%N] ++ lit "Pixel Text Generator" ++ [32%N; 128126%N]);
   Write (lit "Create true pixel-style text using the '" ++ DEFAULT_FONT_FILENAME
          ++ lit "' font (at " ++ str_of_int DEFAULT_FONT_SIZE ++ lit "pt).")].

(** Lines 183 and 184. *)
Definition page_footer : list widget :=
  [Markdown (lit "---");
   Caption (lit "Uses Pillow library and requires a pixel font like 04B_08__.TTF.")].

(** Lines 103 and 104. *)
Definition script_dir : str := dirname (file__ host).
Definition font_file_path : str := os_path_join script_dir DEFAULT_FONT_FILENAME.

(** Line 129. *)
Definition text_color_input : RGBA := DEFAULT_TEXT_COLOR.

(** Lines 143 to 176: what follows a rendering that gave an image. *)
Definition show_image (text_input : str) (pixel_image : Image)
  : ending * list widget :=
  let shown :=
    [Write (lit "---");
     Subheader (lit "Generated Pixel Text:");
     Image_shown pixel_image
       (lit "'" ++ text_input ++ lit "' (" ++ str_of_int (width pixel_image)
        ++ lit "x" ++ str_of_int (height pixel_image) ++ lit " pixels)")
       (lit "auto") (lit "PNG");
     Write (lit "---");
     Subheader (lit "Download")] in
  match save_png host pixel_image with
  | Raise e => (Aborted e, shown)
  | Return byte_im =>
      (Finished,
       shown ++ [Download_button (lit "Download Image (.png)") byte_im
                   (file_name unicode_isalnum text_input) (lit "image/png")])
  end.

(** The whole script. *)
Definition script : ending * list widget :=
  if negb (os_path_exists host font_file_path) then
    (Stopped,
     page_header
     ++ [Error (lit "**Font file '" ++ DEFAULT_FONT_FILENAME ++ lit "' not found!**");
         Write (lit "Please download the font (e.g., from DaFont) and place it in the same directory as this Streamlit script (`"
                ++ script_dir ++ lit "`).");
         Stop])
  else
    let text_input := text_box host in
    let page :=
      page_header ++ [Text_input (lit "Enter text:") (lit "Hello Pixel World!")] in
    match text_input with
    | [] =>
        (Finished,
         page ++ [Info (lit "Enter some text above to generate the pixel art.")]
         ++ page_footer)
    | _ :: _ =>
        match text_to_true_pixel_art lib text_input font_file_path
                DEFAULT_FONT_SIZE text_color_input DEFAULT_BG_COLOR []
        with
        | (Raise e, evs) => (Aborted e, page ++ map Rendering evs)
        | (Return None, evs) => (Finished, page ++ map Rendering evs ++ page_footer)
        | (Return (Some pixel_image), evs) =>
            match show_image text_input pixel_image with
            | (Finished, shown) =>
                (Finished, page ++ map Rendering evs ++ shown ++ page_footer)
            | (way_out, shown) => (way_out, page ++ map Rendering evs ++ shown)
            end
        end
    end.

End Script.

(** ** A small Pillow to run the renderer on

    A one-row bitmap font: the character at index [i] owns column [i] of
    the row [bearing] below the anchor; a space leaves it empty, a letter
    or digit covers it fully, any other character covers it half (an
    anti-aliased edge).  Drawing blends the fill colour into all four
    channels under the coverage mask, as Pillow's [ImageDraw] does (it does
    not composite).  [has_textbbox] and [has_textlength] tell whether this
    build has [ImageDraw.textbbox] and [ImageDraw.textlength]. *)
Module Bitmap.

Record build := { has_textbbox : bool; has_textlength : bool }.

Definition current : build := {| has_textbbox := true; has_textlength := true |}.
Definition no_textbbox : build := {| has_textbbox := false; has_textlength := true |}.
Definition ancient : build := {| has_textbbox := false; has_textlength := false |}.

(** The ink row lies [bearing] rows below the anchor. *)
Definition bearing : Z := 2.

(** The mask value of a glyph, 0 to 255. *)
Definition coverage (c : N) : Z :=
  if (c =? 32)%N then 0 else if ascii_isalnum c then 255 else 128.

(** Pillow's rounding division by 255 and its blend of two 8-bit values. *)
Definition DIV255 (a : Z) : Z :=
  let tmp := a + 128 in Z.shiftr (Z.shiftr tmp 8 + tmp) 8.

Definition BLEND (mask in1 in2 : Z) : Z :=
  DIV255 (in1 * (255 - mask) + in2 * mask).

Definition channel (b : byte) : Z := Z.of_N (Byte.to_N b).

Definition to_channel (z : Z) : byte :=
  match Byte.of_N (Z.to_N z) with Some b => b | None => xff end.

(** One pixel under a mask value: every band is blended, alpha included. *)
Definition fill_mask (mask : Z) (out ink : RGBA) : RGBA :=
  let '(r, g, b, a) := out in
  let '(ir, ig, ib, ia) := ink in
  (to_channel (BLEND mask (channel r) (channel ir)),
   to_channel (BLEND mask (channel g) (channel ig)),
   to_channel (BLEND mask (channel b) (channel ib)),
   to_channel (BLEND mask (channel a) (channel ia))).

(** The columns that carry ink when the text is anchored at column 0. *)
Definition ink_columns (text : str) : list Z :=
  map (fun p => Z.of_nat (fst p))
      (filter (fun p => 0 <? coverage (snd p))
              (combine (seq 0 (length text)) text)).

(** The ink bounding box (left, top, right, bottom) of the text anchored
    at [xy]; without ink the box is empty. *)
Definition ink_box (xy : Z * Z) (text : str) : Z * Z * Z * Z :=
  let '(x, y) := xy in
  match ink_columns text with
  | [] => (x, y, x, y)
  | c :: cs => (x + c, y + bearing, x + last cs c + 1, y + bearing + 1)
  end.

(** The mask value at pixel [(x, y)] when the text is anchored at [xy]. *)
Definition mask_at (xy : Z * Z) (text : str) (x y : Z) : Z :=
  let '(ox, oy) := xy in
  if (y =? oy + bearing) && (0 <=? x - ox)
  then coverage (nth (Z.to_nat (x - ox)) text 32%N)
  else 0.

(** Drawing: pixel [k] of the row-major buffer is at column [k mod w] of
    row [k / w]. *)
Definition paint (xy : Z * Z) (text : str) (fill : RGBA) (img : Image) : Image :=
  let w := width img in
  mkImage (size img)
          (map (fun p =>
                  let k := Z.of_nat (fst p) in
                  fill_mask (mask_at xy text (k mod w) (k / w)) (snd p) fill)
               (combine (seq 0 (length (pixels img))) (pixels img))).

(** The only font file of the deployment is the one the script names. *)
Definition installed (font_path : str) : bool :=
  str_eqb (basename font_path) DEFAULT_FONT_FILENAME.

(** [ImageFont.truetype]: a size that is not positive is a [ValueError],
    a file that cannot be opened an [IOError]. *)
Definition truetype (font_path : str) (font_size : Z) : outcome Z :=
  if font_size <=? 0 then Raise ValueError
  else if installed font_path then Return font_size
  else Raise IOError.

Definition textbbox (b : build) (font : Z) (xy : Z * Z) (text : str)
  : outcome (Z * Z * Z * Z) :=
  if has_textbbox b then Return (ink_box xy text) else Raise AttributeError.

(** [ImageDraw.textlength]: the advance width; it refuses multiline
    text with a [ValueError]. *)
Definition textlength (b : build) (font : Z) (text : str) : outcome Q :=
  if has_textlength b then
    if existsb (N.eqb 10) text then Raise ValueError
    else Return (inject_Z (Z.of_nat (length text)))
  else Raise AttributeError.

(** [font.getmetrics()]: ascent and descent. *)
Definition getmetrics (font : Z) : outcome (Z * Z) := Return (bearing + 1, 1).

Definition draw_text (font : Z) (xy : Z * Z) (text : str) (fill : RGBA) (img : Image)
  : outcome Image :=
  Return (paint xy text fill img).

Lemma paint_inplace xy text fill img :
  size (paint xy text fill img) = size img
  /\ length (pixels (paint xy text fill img)) = length (pixels img).
Proof.
  split; [reflexivity|]. unfold paint; cbn [pixels].
  rewrite length_map, length_combine, length_seq. apply Nat.min_id.
Qed.

Lemma draw_text_inplace font xy text fill img img' :
  draw_text font xy text fill img = Return img' ->
  size img' = size img /\ length (pixels img') = length (pixels img).
Proof.
  unfold draw_text. intros H. injection H as <-. apply paint_inplace.
Qed.

(** This machine allocates every size. *)
Definition pillow (b : build) : Pillow :=
  Build_Pillow Z truetype (textbbox b) (textlength b) getmetrics draw_text
               draw_text_inplace
               (fun _ => None) eq_refl (fun _ _ _ _ _ _ _ => eq_refl).

(** Where the font file of the deployment sits. *)
Definition font_file_path : str := lit "/app/" ++ DEFAULT_FONT_FILENAME.

End Bitmap.

(** ** A host to run the script on

    The script lives in [/app]; the only file beside it is the font;
    the encoder stands for Pillow's PNG writer (a signature followed by the
    raw bytes of the pixels). *)
Module Desk.

Definition encode (img : Image) : list byte :=
  [x89; x50; x4e; x47]
  ++ flat_map (fun p : RGBA => let '(r, g, b, a) := p in [r; g; b; a]) (pixels img).

Definition host (typed : str) : Host :=
  {| file__ := lit "/app/pixel_app.py";
     os_path_exists := fun p => str_eqb p Bitmap.font_file_path;
     text_box := typed;
     save_png := fun img => Return (encode img) |}.

(** The same place without the font file. *)
Definition bare_host (typed : str) : Host :=
  {| file__ := lit "/app/pixel_app.py";
     os_path_exists := fun _ => false;
     text_box := typed;
     save_png := fun img => Return (encode img) |}.

(** A Pillow that cannot read the font file it is given. *)
Definition unreadable : Pillow :=
  Build_Pillow Z (fun _ _ => Raise IOError)
               (Bitmap.textbbox Bitmap.current) (Bitmap.textlength Bitmap.current)
               Bitmap.getmetrics Bitmap.draw_text Bitmap.draw_text_inplace
               (fun _ => None) eq_refl (fun _ _ _ _ _ _ _ => eq_refl).

End Desk.

(** ** The box Pillow measures

    [ImageDraw.textbbox] measures a text from its anchor: the advance of a
    leading space lies inside the box it reports, though a space carries
    no ink.  [Layout.pillow] is the bitmap font measured that way: its box
    begins at the anchor's column and ends after the last inked column. *)
Module Layout.

Definition layout_box (xy : Z * Z) (text : str) : Z * Z * Z * Z :=
  let '(x, y) := xy in
  match Bitmap.ink_columns text with
  | [] => (x, y, x, y)
  | c :: cs => (x, y + Bitmap.bearing, x + last cs c + 1, y + Bitmap.bearing + 1)
  end.

Definition textbbox (font : Z) (xy : Z * Z) (text : str) : outcome (Z * Z * Z * Z) :=
  Return (layout_box xy text).

Definition pillow : Pillow :=
  Build_Pillow Z Bitmap.truetype textbbox (Bitmap.textlength Bitmap.current)
               Bitmap.getmetrics Bitmap.draw_text Bitmap.draw_text_inplace
               (fun _ => None) eq_refl (fun _ _ _ _ _ _ _ => eq_refl).

End Layout.

(** ** A machine short of memory

    [Image.new] raises [MemoryError] for a buffer of more than
    [max_pixels] pixels; measuring and drawing are those of the bitmap
    font.  No image of a refused size exists to draw on. *)
Module Cramped.

Definition max_pixels : Z := 4096.

Definition refuses (sz : Z * Z) : option exn :=
  let '(w, h) := sz in
  if max_pixels <? w * h then Some MemoryError else None.

Definition draw_text (font : Z) (xy : Z * Z) (text : str) (fill : RGBA) (img : Image)
  : outcome Image :=
  match refuses (size img) with
  | Some e => Raise e
  | None => Bitmap.draw_text font xy text fill img
  end.

Lemma drawing_keeps_the_size font xy text fill img img' :
  draw_text font xy text fill img = Return img' ->
  size img' = size img /\ length (pixels img') = length (pixels img).
Proof.
  unfold draw_text. destruct (refuses (size img)); [discriminate|].
  apply Bitmap.draw_text_inplace.
Qed.

Lemma drawing_needs_the_buffer font xy text fill img img' :
  draw_text font xy text fill img = Return img' -> refuses (size img) = None.
Proof.
  unfold draw_text. destruct (refuses (size img)); [discriminate|reflexivity].
Qed.

Definition pillow : Pillow :=
  Build_Pillow Z Bitmap.truetype (Bitmap.textbbox Bitmap.current)
               (Bitmap.textlength Bitmap.current) Bitmap.getmetrics
               draw_text drawing_keeps_the_size
               refuses eq_refl drawing_needs_the_buffer.

(** ["W" * 5000]: one row of 5000 inked columns. *)
Definition long_text : str := repeat 87%N 5000.

End Cramped.

(** * The vocabulary of the statements *)

(** ** The quantization pass, pixel by pixel *)

(** One pixel of the quantization pass. *)
Definition quantize_pixel (text_color bg_color item : RGBA) : RGBA :=
  if (0 <? alpha item)%N then text_color else bg_color.

(** ** How the text is measured *)

(** [measured lib font text bbox evs]: the measuring step, lines 47 to 62,
    ends with [bbox], having produced the events [evs].  Either [textbbox]
    answers, or it is missing ([AttributeError]) and the box is built from
    the advance width and the font's ascent and descent. *)
Inductive measured (lib : Pillow) (font : Font lib) (text : str)
  : Z * Z * Z * Z -> list event -> Prop :=
| measured_precise bbox :
    textbbox lib font (0, 0) text = Return bbox ->
    measured lib font text bbox [Called (textbbox_call (0, 0) text)]
| measured_fallback text_length ascent descent :
    textbbox lib font (0, 0) text = Raise AttributeError ->
    textlength lib font text = Return text_length ->
    getmetrics lib font = Return (ascent, descent) ->
    measured lib font text (0, 0, int text_length, ascent + descent)
             [Called (textbbox_call (0, 0) text);
              St_warning fallback_msg;
              Called (textlength_call text);
              Called getmetrics_call].

(** The buffer that line 75 allocates. *)
Definition blank (bbox : Z * Z * Z * Z) (bg_color : RGBA) : Image :=
  let '(bbox0, bbox1, bbox2, bbox3) := bbox in
  mkImage (bbox2 - bbox0, bbox3 - bbox1)
          (repeat bg_color (Z.to_nat ((bbox2 - bbox0) * (bbox3 - bbox1)))).

(** The origin that line 77 draws at. *)
Definition draw_origin (bbox : Z * Z * Z * Z) : Z * Z :=
  let '(bbox0, bbox1, _, _) := bbox in (- bbox0, - bbox1).

Definition box_width (bbox : Z * Z * Z * Z) : Z :=
  let '(bbox0, _, bbox2, _) := bbox in bbox2 - bbox0.
Definition box_height (bbox : Z * Z * Z * Z) : Z :=
  let '(_, bbox1, _, bbox3) := bbox in bbox3 - bbox1.

(** The events up to and including the measuring step. *)
Definition prelude (text font_path : str) (font_size : Z) (evs : list event) : list event :=
  [Called (ImageFont_truetype_call font_path font_size);
   Called (Image_new_call (1, 1) (x00, x00, x00, x00))] ++ evs.

(** The fallback's own calls into Pillow: [getmetrics] is reached only
    when [textlength] answers. *)
Definition fallback_calls (lib : Pillow) (font : Font lib) (text : str) : list event :=
  match textlength lib font text with
  | Return _ => [Called (textlength_call text); Called getmetrics_call]
  | Raise _ => [Called (textlength_call text)]
  end.

(** The events of the rasterization path after the measuring step. *)
Definition render_events (text : str) (text_color bg_color : RGBA)
    (bbox : Z * Z * Z * Z) (n : nat) : list event :=
  [Called (Image_new_call (box_width bbox, box_height bbox) bg_color);
   Called (draw_text_call (draw_origin bbox) text text_color);
   Called getdata_call;
   Called (putdata_call n)].

(** ** Where the ink is *)

(** The pixel at column [x] of row [y]; the buffer is row-major. *)
Definition pixel_at (img : Image) (x y : Z) : option RGBA :=
  if (0 <=? x) && (x <? width img) && (0 <=? y) && (y <? height img)
  then nth_error (pixels img) (Z.to_nat (y * width img + x))
  else None.

(** Column [x], row [y] of the buffer holds a pixel of colour [c]. *)
Definition ink_at_column (img : Image) (c : RGBA) (x : Z) : Prop :=
  exists y, pixel_at img x y = Some c.

Definition ink_at_row (img : Image) (c : RGBA) (y : Z) : Prop :=
  exists x, pixel_at img x y = Some c.

(** [inks lib font text fill m]: [m] is where the text, drawn with
    [fill], leaves ink, relative to its anchor.  Drawing the text at [xy]
    leaves a pixel of alpha 0 at [(x, y)] with positive alpha exactly when
    [m (x - fst xy) (y - snd xy)] holds. *)
Definition inks (lib : Pillow) (font : Font lib) (text : str) (fill : RGBA)
    (m : Z -> Z -> bool) : Prop :=
  forall xy img img',
    draw_text lib font xy text fill img = Return img' ->
    forall x y p,
      pixel_at img x y = Some p -> alpha p = 0%N ->
      exists p',
        pixel_at img' x y = Some p'
        /\ (0 <? alpha p')%N = m (x - fst xy) (y - snd xy).

(** ** Notices and exceptions *)

Definition is_error (ev : event) : bool :=
  match ev with St_error _ => true | _ => false end.

(** The notices the renderer can show. *)
Definition known_notice (text font_path : str) (ev : event) : Prop :=
  is_notice ev = true ->
  In ev [St_error (font_not_found_msg font_path);
         St_warning fallback_msg;
         St_error no_dimensions_msg;
         St_warning (degenerate_msg text)].

(** [escapes lib text font_path font_size text_color bg_color e]: some
    Pillow call of the run raises [e] where no handler of the function
    waits for it: the font loading, the measuring, the allocation of the
    buffer or the drawing. *)
Definition escapes (lib : Pillow) (text font_path : str) (font_size : Z)
    (text_color bg_color : RGBA) (e : exn) : Prop :=
  (truetype lib font_path font_size = Raise e /\ e <> IOError)
  \/ exists font,
      truetype lib font_path font_size = Return font
      /\ ((textbbox lib font (0, 0) text = Raise e /\ e <> AttributeError)
          \/ (textbbox lib font (0, 0) text = Raise AttributeError
              /\ e <> AttributeError
              /\ (textlength lib font text = Raise e
                  \/ exists q, textlength lib font text = Return q
                               /\ getmetrics lib font = Raise e))
          \/ exists bbox evs,
              measured lib font text bbox evs
              /\ 0 < box_width bbox /\ 0 < box_height bbox
              /\ (refuses lib (box_width bbox, box_height bbox) = Some e
                  \/ (refuses lib (box_width bbox, box_height bbox) = None
                      /\ draw_text lib font (draw_origin bbox) text text_color
                                   (blank bbox bg_color) = Raise e))).

(** [run_summary ... o evs]: every run gives back [o] and adds [evs] to the
    trace; the notices among [evs] are those of the script; [o] is an
    exception only if it escapes; a buffer in [o] holds the two colours
    only. *)
Definition run_summary (lib : Pillow) (text font_path : str) (font_size : Z)
    (text_color bg_color : RGBA) (o : outcome (option Image)) (evs : list event)
  : Prop :=
  (forall t,
      text_to_true_pixel_art lib text font_path font_size text_color bg_color t
      = (o, t ++ evs))
  /\ Forall (known_notice text font_path) evs
  /\ (forall e, o = Raise e ->
                escapes lib text font_path font_size text_color bg_color e)
  /\ (forall out, o = Return (Some out) ->
                  Forall (fun p => p = text_color \/ p = bg_color) (pixels out)).

(** ** The claims of the specification that the code does not meet, as worded *)

(** The claim as the specification words it: a call shows nothing, it only
    returns its buffer. *)
Definition no_side_effects (lib : Pillow) (text font_path : str) (font_size : Z)
    (text_color bg_color : RGBA) : Prop :=
  forall t,
    filter is_notice
           (snd (text_to_true_pixel_art lib text font_path font_size
                   text_color bg_color t))
    = filter is_notice t.

(** The claim as the specification words it: the buffer has the size of
    the measured box, and the ink's top-left corner is at [(0, 0)]: the
    first column and the first row of the buffer both hold ink. *)
Definition ink_lands_at_origin (lib : Pillow) (text font_path : str)
    (font_size : Z) (text_color bg_color : RGBA) : Prop :=
  forall font bbox evs t out,
    truetype lib font_path font_size = Return font ->
    measured lib font text bbox evs ->
    0 < box_width bbox -> 0 < box_height bbox ->
    fst (text_to_true_pixel_art lib text font_path font_size text_color bg_color t)
    = Return (Some out) ->
    width out = box_width bbox /\ height out = box_height bbox
    /\ ink_at_column out text_color 0 /\ ink_at_row out text_color 0.

(** The claim as the specification words it: no exception ever leaves
    the call. *)
Definition never_raises (lib : Pillow) (text font_path : str) (font_size : Z)
    (text_color bg_color : RGBA) : Prop :=
  forall t e,
    fst (text_to_true_pixel_art lib text font_path font_size text_color bg_color t)
    <> Raise e.

(** The claim as the specification words it: once [textbbox] is missing,
    the call still gives an image. *)
Definition fallback_always_renders (lib : Pillow) (text font_path : str)
    (font_size : Z) (text_color bg_color : RGBA) : Prop :=
  forall font,
    truetype lib font_path font_size = Return font ->
    textbbox lib font (0, 0) text = Raise AttributeError ->
    forall t, exists img,
      fst (text_to_true_pixel_art lib text font_path font_size
             text_color bg_color t)
      = Return (Some img).

(** The claim as the specification words it: with a background of
    positive alpha every pixel of a non-degenerate rendering is
    [text_color]. *)
Definition opaque_background_floods (lib : Pillow) (text font_path : str)
    (font_size : Z) (text_color bg_color : RGBA) : Prop :=
  (0 < alpha bg_color)%N ->
  forall font bbox evs t out,
    truetype lib font_path font_size = Return font ->
    measured lib font text bbox evs ->
    0 < box_width bbox -> 0 < box_height bbox ->
    fst (text_to_true_pixel_art lib text font_path font_size text_color bg_color t)
    = Return (Some out) ->
    Forall (fun p => p = text_color) (pixels out).

(** [b] is the pixel-wise colour inverse of [a]: same shape, and what is
    [c1] in [a] is [c2] in [b] and the other way round. *)
Definition colour_inverse (c1 c2 : RGBA) (a b : Image) : Prop :=
  size a = size b
  /\ length (pixels a) = length (pixels b)
  /\ forall i p q,
      nth_error (pixels a) i = Some p ->
      nth_error (pixels b) i = Some q ->
      (p = c1 -> q = c2) /\ (p = c2 -> q = c1).

(** The claim as the specification words it. *)
Definition swap_inverts (lib : Pillow) (text font_path : str) (font_size : Z)
    (text_color bg_color : RGBA) : Prop :=
  forall font bbox evs t out out',
    truetype lib font_path font_size = Return font ->
    measured lib font text bbox evs ->
    0 < box_width bbox -> 0 < box_height bbox ->
    fst (text_to_true_pixel_art lib text font_path font_size text_color bg_color t)
    = Return (Some out) ->
    fst (text_to_true_pixel_art lib text font_path font_size bg_color text_color t)
    = Return (Some out') ->
    colour_inverse text_color bg_color out out'.

(** ** Alpha under the drawing *)

(** Drawing with a fill of positive alpha leaves no pixel of positive
    alpha with alpha 0. *)
Definition keeps_alpha (lib : Pillow) : Prop :=
  forall f xy s fill img img',
    draw_text lib f xy s fill img = Return img' ->
    (0 < alpha fill)%N ->
    Forall (fun p => (0 < alpha p)%N) (pixels img) ->
    Forall (fun p => (0 < alpha p)%N) (pixels img').

(** ** The paths through the renderer *)

(** [run_path lib text font_path font_size text_color bg_color o evs]: one
    of the nine ways through the function, with what it gives back and
    the events it adds. *)
Inductive run_path (lib : Pillow) (text font_path : str) (font_size : Z)
    (text_color bg_color : RGBA)
  : outcome (option Image) -> list event -> Prop :=
| path_font_missing :
    truetype lib font_path font_size = Raise IOError ->
    run_path lib text font_path font_size text_color bg_color
      (Return None)
      [Called (ImageFont_truetype_call font_path font_size);
       St_error (font_not_found_msg font_path)]
| path_font_raises e :
    truetype lib font_path font_size = Raise e -> e <> IOError ->
    run_path lib text font_path font_size text_color bg_color
      (Raise e)
      [Called (ImageFont_truetype_call font_path font_size)]
| path_textbbox_raises font e :
    truetype lib font_path font_size = Return font ->
    textbbox lib font (0, 0) text = Raise e -> e <> AttributeError ->
    run_path lib text font_path font_size text_color bg_color
      (Raise e)
      (prelude text font_path font_size [Called (textbbox_call (0, 0) text)])
| path_fallback_missing font :
    truetype lib font_path font_size = Return font ->
    textbbox lib font (0, 0) text = Raise AttributeError ->
    textlength lib font text = Raise AttributeError
    \/ (exists q, textlength lib font text = Return q
                  /\ getmetrics lib font = Raise AttributeError) ->
    run_path lib text font_path font_size text_color bg_color
      (Return None)
      (prelude text font_path font_size
         ([Called (textbbox_call (0, 0) text); St_warning fallback_msg]
          ++ fallback_calls lib font text ++ [St_error no_dimensions_msg]))
| path_fallback_raises font e :
    truetype lib font_path font_size = Return font ->
    textbbox lib font (0, 0) text = Raise AttributeError ->
    e <> AttributeError ->
    textlength lib font text = Raise e
    \/ (exists q, textlength lib font text = Return q
                  /\ getmetrics lib font = Raise e) ->
    run_path lib text font_path font_size text_color bg_color
      (Raise e)
      (prelude text font_path font_size
         ([Called (textbbox_call (0, 0) text); St_warning fallback_msg]
          ++ fallback_calls lib font text))
| path_degenerate font bbox evs :
    truetype lib font_path font_size = Return font ->
    measured lib font text bbox evs ->
    box_width bbox <= 0 \/ box_height bbox <= 0 ->
    run_path lib text font_path font_size text_color bg_color
      (Return (Some (mkImage (1, 1) [bg_color])))
      (prelude text font_path font_size evs
       ++ [St_warning (degenerate_msg text);
           Called (Image_new_call (1, 1) bg_color)])
| path_render font bbox evs drawn :
    truetype lib font_path font_size = Return font ->
    measured lib font text bbox evs ->
    0 < box_width bbox -> 0 < box_height bbox ->
    draw_text lib font (draw_origin bbox) text text_color (blank bbox bg_color)
    = Return drawn ->
    run_path lib text font_path font_size text_color bg_color
      (Return (Some (mkImage (size drawn)
                             (map (quantize_pixel text_color bg_color)
                                  (pixels drawn)))))
      (prelude text font_path font_size evs
       ++ render_events text text_color bg_color bbox (length (pixels drawn)))
| path_allocation_raises font bbox evs e :
    truetype lib font_path font_size = Return font ->
    measured lib font text bbox evs ->
    0 < box_width bbox -> 0 < box_height bbox ->
    refuses lib (box_width bbox, box_height bbox) = Some e ->
    run_path lib text font_path font_size text_color bg_color
      (Raise e)
      (prelude text font_path font_size evs
       ++ [Called (Image_new_call (box_width bbox, box_height bbox) bg_color)])
| path_draw_raises font bbox evs e :
    truetype lib font_path font_size = Return font ->
    measured lib font text bbox evs ->
    0 < box_width bbox -> 0 < box_height bbox ->
    refuses lib (box_width bbox, box_height bbox) = None ->
    draw_text lib font (draw_origin bbox) text text_color (blank bbox bg_color)
    = Raise e ->
    run_path lib text font_path font_size text_color bg_color
      (Raise e)
      (prelude text font_path font_size evs
       ++ [Called (Image_new_call (box_width bbox, box_height bbox) bg_color);
           Called (draw_text_call (draw_origin bbox) text text_color)]).

(** ** The page of the script *)

Definition is_rendering (w : widget) : bool :=
  match w with Rendering _ => true | _ => false end.

Definition is_text_input (w : widget) : bool :=
  match w with Text_input _ _ => true | _ => false end.

Definition is_footer (w : widget) : bool :=
  match w with Caption _ => true | _ => false end.

(** * Lemmas *)

Arguments lit : simpl never.
Arguments basename : simpl never.
Arguments quantize : simpl never.
Arguments putdata : simpl never.

(** ** What the loop computes *)

Lemma quantize_from (text_color bg_color : RGBA) (img_data acc : list RGBA) :
  fold_left
    (fun new_data item =>
       if (0 <? alpha item)%N then new_data ++ [text_color]
       else new_data ++ [bg_color])
    img_data acc
  = acc ++ map (quantize_pixel text_color bg_color) img_data.
Proof.
  revert acc; induction img_data as [|item rest IH]; intros acc; simpl.
  - now rewrite app_nil_r.
  - rewrite IH. unfold quantize_pixel.
    destruct (0 <? alpha item)%N; now rewrite <- app_assoc.
Qed.

Lemma quantize_map (text_color bg_color : RGBA) (img_data : list RGBA) :
  quantize text_color bg_color img_data
  = map (quantize_pixel text_color bg_color) img_data.
Proof. unfold quantize. now rewrite quantize_from. Qed.

Lemma putdata_full (img : Image) (data : list RGBA) :
  length data = length (pixels img) ->
  putdata img data = mkImage (size img) data.
Proof.
  intros Hlen. unfold putdata. f_equal.
  rewrite Hlen, skipn_all, app_nil_r, <- Hlen.
  apply firstn_all.
Qed.

Lemma putdata_quantize (text_color bg_color : RGBA) (img : Image) :
  putdata img (quantize text_color bg_color (getdata img))
  = mkImage (size img) (map (quantize_pixel text_color bg_color) (pixels img)).
Proof.
  unfold getdata. rewrite quantize_map.
  apply putdata_full. apply length_map.
Qed.

Lemma quantize_pixel_two_valued (text_color bg_color item : RGBA) :
  quantize_pixel text_color bg_color item = text_color
  \/ quantize_pixel text_color bg_color item = bg_color.
Proof. unfold quantize_pixel. destruct (0 <? alpha item)%N; auto. Qed.

Lemma quantized_two_valued (text_color bg_color : RGBA) (img_data : list RGBA) :
  Forall (fun p => p = text_color \/ p = bg_color)
         (map (quantize_pixel text_color bg_color) img_data).
Proof.
  apply Forall_forall. intros p Hp. apply in_map_iff in Hp as [item [<- _]].
  apply quantize_pixel_two_valued.
Qed.

(** ** The download name *)

Lemma rstrip_underscore_split (s : str) :
  exists k, s = rstrip_underscore s ++ repeat underscore k.
Proof.
  induction s as [|c s [k IH]]; [now exists 0%nat|]. cbn [rstrip_underscore fold_right].
  fold (rstrip_underscore s).
  destruct (rstrip_underscore s) as [|d kept] eqn:E.
  - destruct (N.eqb_spec c underscore) as [->|Hc].
    + exists (S k). cbn. now rewrite IH at 1.
    + exists k. cbn. now rewrite IH at 1.
  - exists k. cbn. now rewrite IH at 1.
Qed.

Lemma rstrip_underscore_last (s : str) :
  last (rstrip_underscore s) 0%N <> underscore.
Proof.
  induction s as [|c s IH]; [discriminate|]. cbn [rstrip_underscore fold_right].
  fold (rstrip_underscore s).
  destruct (rstrip_underscore s) as [|d kept] eqn:E.
  - destruct (N.eqb_spec c underscore) as [->|Hc]; [discriminate | exact Hc].
  - exact IH.
Qed.

Lemma rstrip_underscore_length (s : str) :
  (length (rstrip_underscore s) <= length s)%nat.
Proof.
  destruct (rstrip_underscore_split s) as [k Hk].
  rewrite Hk at 2. rewrite length_app. lia.
Qed.

Lemma rstrip_underscore_incl (s : str) (c : N) :
  In c (rstrip_underscore s) -> In c s.
Proof.
  destruct (rstrip_underscore_split s) as [k Hk].
  intros Hin. rewrite Hk. apply in_or_app. now left.
Qed.

(** ** The measuring step *)

Lemma fallback_calls_quiet (lib : Pillow) (font : Font lib) (text : str) :
  Forall (fun ev => is_notice ev = false) (fallback_calls lib font text).
Proof.
  unfold fallback_calls. destruct (textlength lib font text); repeat constructor.
Qed.

Lemma measured_quiet (lib : Pillow) (font : Font lib) (text : str) bbox evs :
  measured lib font text bbox evs ->
  existsb is_drawing evs = false /\ existsb is_error evs = false.
Proof. intros [? ?|? ? ? ? ? ?]; split; reflexivity. Qed.

(** ** The paths through the function *)

Section Paths.

Variable lib : Pillow.
Variables (text font_path : str) (font_size : Z) (text_color bg_color : RGBA).

Local Abbreviation run := (text_to_true_pixel_art lib text font_path font_size text_color bg_color).

Ltac start :=
  unfold text_to_true_pixel_art, def_, text_to_true_pixel_art_body,
    bind, try_except, call, st_error, st_warning, return_, ret.

Lemma Image_new_1x1 (color : RGBA) :
  Image_new lib (1, 1) color = Return (mkImage (1, 1) [color]).
Proof. unfold Image_new. cbn. now rewrite refuses_1x1. Qed.

Ltac tidy :=
  rewrite ?Image_new_1x1; cbn [exn_eqb fst snd];
  repeat rewrite <- app_assoc; cbn [app].

(** Font loading fails with [IOError]. *)
Lemma run_font_missing (t : trace) :
  truetype lib font_path font_size = Raise IOError ->
  run t = (Return None,
           t ++ [Called (ImageFont_truetype_call font_path font_size);
                 St_error (font_not_found_msg font_path)]).
Proof.
  intros Hfont. start. rewrite Hfont. tidy. reflexivity.
Qed.

(** Font loading fails with anything else. *)
Lemma run_font_raises (t : trace) (e : exn) :
  truetype lib font_path font_size = Raise e -> e <> IOError ->
  run t = (Raise e, t ++ [Called (ImageFont_truetype_call font_path font_size)]).
Proof.
  intros Hfont He. start. rewrite Hfont.
  destruct e; try congruence; reflexivity.
Qed.

(** Degenerate extent. *)
Lemma run_degenerate (t : trace) font bbox evs :
  truetype lib font_path font_size = Return font ->
  measured lib font text bbox evs ->
  box_width bbox <= 0 \/ box_height bbox <= 0 ->
  run t = (Return (Some (mkImage (1, 1) [bg_color])),
           t ++ prelude text font_path font_size evs
             ++ [St_warning (degenerate_msg text);
                 Called (Image_new_call (1, 1) bg_color)]).
Proof.
  intros Hfont Hm Hdeg. start. rewrite Hfont. tidy.
  assert (Htest : (box_width bbox <=? 0) || (box_height bbox <=? 0) = true).
  { apply orb_true_iff. rewrite !Z.leb_le. exact Hdeg. }
  destruct Hm as [bbox Hbb | q a d Hbb Hlen Hmet].
  - rewrite Hbb. destruct bbox as [[[l tp] r] b]. unfold box_width, box_height in Htest.
    rewrite Htest. unfold prelude. tidy. reflexivity.
  - rewrite Hbb. tidy. rewrite Hlen, Hmet. unfold box_width, box_height in Htest.
    rewrite Htest. unfold prelude. tidy. reflexivity.
Qed.

Lemma Image_new_blank (bbox : Z * Z * Z * Z) (color : RGBA) :
  0 < box_width bbox -> 0 < box_height bbox ->
  refuses lib (box_width bbox, box_height bbox) = None ->
  Image_new lib (box_width bbox, box_height bbox) color = Return (blank bbox color).
Proof.
  destruct bbox as [[[l tp] r] b]. unfold box_width, box_height, blank, Image_new.
  intros Hw Hh Halloc.
  destruct (Z.ltb_spec (r - l) 0); [lia|].
  destruct (Z.ltb_spec (b - tp) 0); [lia|].
  cbn [orb]. now rewrite Halloc.
Qed.

Lemma Image_new_refused (bbox : Z * Z * Z * Z) (color : RGBA) (e : exn) :
  0 < box_width bbox -> 0 < box_height bbox ->
  refuses lib (box_width bbox, box_height bbox) = Some e ->
  Image_new lib (box_width bbox, box_height bbox) color = Raise e.
Proof.
  destruct bbox as [[[l tp] r] b]. unfold box_width, box_height, Image_new.
  intros Hw Hh Halloc.
  destruct (Z.ltb_spec (r - l) 0); [lia|].
  destruct (Z.ltb_spec (b - tp) 0); [lia|].
  cbn [orb]. now rewrite Halloc.
Qed.

(** What is drawn on was allocated. *)
Lemma drawn_on_blank_allocated font bbox xy fill drawn :
  draw_text lib font xy text fill (blank bbox bg_color) = Return drawn ->
  refuses lib (box_width bbox, box_height bbox) = None.
Proof.
  intros Hdraw. apply draw_text_allocated in Hdraw.
  destruct bbox as [[[l tp] r] b]. exact Hdraw.
Qed.

Lemma nondegenerate_test (bbox : Z * Z * Z * Z) :
  0 < box_width bbox -> 0 < box_height bbox ->
  (box_width bbox <=? 0) || (box_height bbox <=? 0) = false.
Proof.
  intros Hw Hh. apply orb_false_iff. rewrite !Z.leb_gt. auto.
Qed.

(** Non-degenerate extent, the drawing succeeds. *)
Lemma run_render (t : trace) font bbox evs drawn :
  truetype lib font_path font_size = Return font ->
  measured lib font text bbox evs ->
  0 < box_width bbox -> 0 < box_height bbox ->
  draw_text lib font (draw_origin bbox) text text_color (blank bbox bg_color)
  = Return drawn ->
  run t = (Return (Some (mkImage (size drawn)
                                 (map (quantize_pixel text_color bg_color)
                                      (pixels drawn)))),
           t ++ prelude text font_path font_size evs
             ++ render_events text text_color bg_color bbox (length (pixels drawn))).
Proof.
  intros Hfont Hm Hw Hh Hdraw. start. rewrite Hfont. tidy.
  pose proof (nondegenerate_test bbox Hw Hh) as Htest.
  pose proof (Image_new_blank bbox bg_color Hw Hh
                (drawn_on_blank_allocated _ _ _ _ _ Hdraw)) as Hnew.
  assert (Hq : length (quantize text_color bg_color (getdata drawn))
               = length (pixels drawn)).
  { rewrite quantize_map. apply length_map. }
  destruct Hm as [bbox Hbb | q a d Hbb Hlen Hmet].
  - rewrite Hbb. destruct bbox as [[[l tp] r] b].
    unfold box_width, box_height, draw_origin in *.
    rewrite Htest, Hnew, Hdraw, Hq, putdata_quantize.
    unfold prelude, render_events. tidy. reflexivity.
  - rewrite Hbb. tidy. rewrite Hlen, Hmet.
    unfold box_width, box_height, draw_origin in *.
    rewrite Htest, Hnew, Hdraw, Hq, putdata_quantize.
    unfold prelude, render_events. tidy. reflexivity.
Qed.

(** Non-degenerate extent, the buffer cannot be allocated: nothing
    catches what [Image.new] raises. *)
Lemma run_allocation_raises (t : trace) font bbox evs e :
  truetype lib font_path font_size = Return font ->
  measured lib font text bbox evs ->
  0 < box_width bbox -> 0 < box_height bbox ->
  refuses lib (box_width bbox, box_height bbox) = Some e ->
  run t = (Raise e,
           t ++ prelude text font_path font_size evs
             ++ [Called (Image_new_call (box_width bbox, box_height bbox) bg_color)]).
Proof.
  intros Hfont Hm Hw Hh Halloc. start. rewrite Hfont. tidy.
  pose proof (nondegenerate_test bbox Hw Hh) as Htest.
  pose proof (Image_new_refused bbox bg_color e Hw Hh Halloc) as Hnew.
  destruct Hm as [bbox Hbb | q a d Hbb Hlen Hmet].
  - rewrite Hbb. destruct bbox as [[[l tp] r] b].
    unfold box_width, box_height, draw_origin in *.
    rewrite Htest, Hnew.
    unfold prelude. tidy. reflexivity.
  - rewrite Hbb. tidy. rewrite Hlen, Hmet.
    unfold box_width, box_height, draw_origin in *.
    rewrite Htest, Hnew.
    unfold prelude. tidy. reflexivity.
Qed.

(** Non-degenerate extent, the drawing raises: nothing catches it. *)
Lemma run_draw_raises (t : trace) font bbox evs e :
  truetype lib font_path font_size = Return font ->
  measured lib font text bbox evs ->
  0 < box_width bbox -> 0 < box_height bbox ->
  refuses lib (box_width bbox, box_height bbox) = None ->
  draw_text lib font (draw_origin bbox) text text_color (blank bbox bg_color)
  = Raise e ->
  run t = (Raise e,
           t ++ prelude text font_path font_size evs
             ++ [Called (Image_new_call (box_width bbox, box_height bbox) bg_color);
                 Called (draw_text_call (draw_origin bbox) text text_color)]).
Proof.
  intros Hfont Hm Hw Hh Halloc Hdraw. start. rewrite Hfont. tidy.
  pose proof (nondegenerate_test bbox Hw Hh) as Htest.
  pose proof (Image_new_blank bbox bg_color Hw Hh Halloc) as Hnew.
  destruct Hm as [bbox Hbb | q a d Hbb Hlen Hmet].
  - rewrite Hbb. destruct bbox as [[[l tp] r] b].
    unfold box_width, box_height, draw_origin in *.
    rewrite Htest, Hnew, Hdraw.
    unfold prelude. tidy. reflexivity.
  - rewrite Hbb. tidy. rewrite Hlen, Hmet.
    unfold box_width, box_height, draw_origin in *.
    rewrite Htest, Hnew, Hdraw.
    unfold prelude. tidy. reflexivity.
Qed.

(** [textbbox] raises something other than [AttributeError]. *)
Lemma run_textbbox_raises (t : trace) font e :
  truetype lib font_path font_size = Return font ->
  textbbox lib font (0, 0) text = Raise e -> e <> AttributeError ->
  run t = (Raise e, t ++ prelude text font_path font_size
                           [Called (textbbox_call (0, 0) text)]).
Proof.
  intros Hfont Hbb He. start. rewrite Hfont. tidy. rewrite Hbb.
  unfold prelude. destruct e; try congruence; tidy; reflexivity.
Qed.

(** Neither [textbbox] nor the fallback is there. *)
Lemma run_fallback_missing (t : trace) font :
  truetype lib font_path font_size = Return font ->
  textbbox lib font (0, 0) text = Raise AttributeError ->
  textlength lib font text = Raise AttributeError
  \/ (exists q, textlength lib font text = Return q
                /\ getmetrics lib font = Raise AttributeError) ->
  run t = (Return None,
           t ++ prelude text font_path font_size
                  ([Called (textbbox_call (0, 0) text);
                    St_warning fallback_msg]
                   ++ fallback_calls lib font text
                   ++ [St_error no_dimensions_msg])).
Proof.
  intros Hfont Hbb [Hlen | [q [Hlen Hmet]]]; unfold fallback_calls.
  - start. rewrite Hfont. tidy. rewrite Hbb. tidy. rewrite Hlen.
    unfold prelude. tidy. reflexivity.
  - start. rewrite Hfont. tidy. rewrite Hbb. tidy. rewrite Hlen, Hmet.
    unfold prelude. tidy. reflexivity.
Qed.

(** The fallback raises something other than [AttributeError]. *)
Lemma run_fallback_raises (t : trace) font e :
  truetype lib font_path font_size = Return font ->
  textbbox lib font (0, 0) text = Raise AttributeError ->
  e <> AttributeError ->
  textlength lib font text = Raise e
  \/ (exists q, textlength lib font text = Return q
                /\ getmetrics lib font = Raise e) ->
  run t = (Raise e,
           t ++ prelude text font_path font_size
                  ([Called (textbbox_call (0, 0) text);
                    St_warning fallback_msg]
                   ++ fallback_calls lib font text)).
Proof.
  intros Hfont Hbb He [Hlen | [q [Hlen Hmet]]]; unfold fallback_calls.
  - start. rewrite Hfont. tidy. rewrite Hbb. tidy. rewrite Hlen.
    unfold prelude. destruct e; try congruence; tidy; reflexivity.
  - start. rewrite Hfont. tidy. rewrite Hbb. tidy. rewrite Hlen, Hmet.
    unfold prelude. destruct e; try congruence; tidy; reflexivity.
Qed.

End Paths.

(** ** Every way out of the call *)

Definition exn_eq_dec (a b : exn) : {a = b} + {a <> b}.
Proof. decide equality. Defined.

Section Cases.

Variable lib : Pillow.
Variables (text font_path : str) (font_size : Z) (text_color bg_color : RGBA).

Local Abbreviation run := (text_to_true_pixel_art lib text font_path font_size text_color bg_color).

Lemma known_notice_call (c : pillow_call) : known_notice text font_path (Called c).
Proof. intros H. discriminate H. Qed.

Lemma known_notice_script (ev : event) :
  In ev [St_error (font_not_found_msg font_path);
         St_warning fallback_msg;
         St_error no_dimensions_msg;
         St_warning (degenerate_msg text)] ->
  known_notice text font_path ev.
Proof. intros H _. exact H. Qed.

Lemma known_notice_quiet (evs : list event) :
  Forall (fun ev => is_notice ev = false) evs ->
  Forall (known_notice text font_path) evs.
Proof.
  apply Forall_impl. intros ev H H'. congruence.
Qed.

Ltac known :=
  repeat first
    [ apply Forall_nil
    | apply Forall_cons
    | apply known_notice_call
    | apply known_notice_script; cbn [In]; tauto ].

Lemma measured_known (font : Font lib) bbox evs :
  measured lib font text bbox evs -> Forall (known_notice text font_path) evs.
Proof. intros [? ?|? ? ? ? ? ?]; known. Qed.

(** The whole case analysis: what the call gives back and what it adds to
    the trace depend on the arguments and on Pillow's answers only. *)
Lemma run_cases :
  exists o evs,
    run_summary lib text font_path font_size text_color bg_color o evs.
Proof.
  unfold run_summary.
  destruct (truetype lib font_path font_size) as [font|e] eqn:Hfont.
  2:{ destruct (exn_eq_dec e IOError) as [->|He].
      - do 2 eexists. split; [intros t; now apply run_font_missing|].
        split; [known|]. split; discriminate.
      - do 2 eexists. split; [intros t; eapply run_font_raises; eauto|].
        split; [known|]. split; [|discriminate].
        intros e' [= <-]. left. auto. }
  assert (Hpre : forall evs, Forall (known_notice text font_path) evs ->
                 Forall (known_notice text font_path)
                        (prelude text font_path font_size evs)).
  { intros evs H. unfold prelude. cbn [app].
    do 2 (apply Forall_cons; [apply known_notice_call|]). exact H. }
  assert (Hmeasured : forall bbox evs, measured lib font text bbox evs ->
    exists o evs',
      run_summary lib text font_path font_size text_color bg_color o evs').
  { unfold run_summary.
    intros bbox evs Hm. pose proof (measured_known font bbox evs Hm) as Hk.
    assert (Hdeg : box_width bbox <= 0 \/ box_height bbox <= 0 ->
      exists o evs',
        run_summary lib text font_path font_size text_color bg_color o evs').
    { unfold run_summary. intros Hdeg.
      do 2 eexists. split; [intros t; eapply run_degenerate; eauto|].
      split; [apply Forall_app; split; [now apply Hpre|known]|].
      split; [discriminate|].
      intros out [= <-]. cbn [pixels].
      apply Forall_cons; [now right | apply Forall_nil]. }
    destruct (Z_lt_le_dec 0 (box_width bbox)) as [Hw|Hw]; [|now apply Hdeg; left].
    destruct (Z_lt_le_dec 0 (box_height bbox)) as [Hh|Hh]; [|now apply Hdeg; right].
    destruct (refuses lib (box_width bbox, box_height bbox)) as [e|] eqn:Halloc.
    { do 2 eexists. split; [intros t; eapply run_allocation_raises; eauto|].
      split; [apply Forall_app; split; [now apply Hpre|known]|].
      split; [|discriminate].
      intros e' [= <-]. right. exists font. split; [exact Hfont|].
      right. right. exists bbox, evs. auto. }
    destruct (draw_text lib font (draw_origin bbox) text text_color
                        (blank bbox bg_color)) as [drawn|e] eqn:Hdraw.
    - do 2 eexists. split; [intros t; eapply run_render; eauto|].
      split; [apply Forall_app; split; [now apply Hpre|unfold render_events; known]|].
      split; [discriminate|].
      intros out [= <-]. cbn [pixels]. apply quantized_two_valued.
    - do 2 eexists. split; [intros t; eapply run_draw_raises; eauto|].
      split; [apply Forall_app; split; [now apply Hpre|known]|].
      split; [|discriminate].
      intros e' [= <-]. right. exists font. split; [exact Hfont|].
      right. right. exists bbox, evs. auto 7. }
  destruct (textbbox lib font (0, 0) text) as [bbox|e] eqn:Hbb.
  { apply (Hmeasured bbox _ (measured_precise lib font text bbox Hbb)). }
  destruct (exn_eq_dec e AttributeError) as [->|He].
  2:{ do 2 eexists. split; [intros t; eapply run_textbbox_raises; eauto|].
      split; [apply Hpre; known|]. split; [|discriminate].
      intros e' [= <-]. right. exists font. split; [exact Hfont|]. left. auto. }
  assert (Hfb : forall evs, Forall (fun ev => is_notice ev = false) evs ->
     Forall (known_notice text font_path)
       (prelude text font_path font_size
          ([Called (textbbox_call (0, 0) text); St_warning fallback_msg] ++ evs))).
  { intros evs H. apply Hpre. cbn [app].
    do 2 (apply Forall_cons; [known|]).
    now apply known_notice_quiet. }
  assert (Hother : forall e,
    textlength lib font text = Raise e
    \/ (exists q, textlength lib font text = Return q
                  /\ getmetrics lib font = Raise e) ->
    exists o evs',
      run_summary lib text font_path font_size text_color bg_color o evs').
  { unfold run_summary. intros e Hcase.
    destruct (exn_eq_dec e AttributeError) as [->|He].
    - do 2 eexists. split; [|split; [|split]].
      + intros t. now apply run_fallback_missing with (font := font).
      + apply Hpre. cbn [app]. do 2 (apply Forall_cons; [known|]).
        apply Forall_app. split; [|known].
        apply known_notice_quiet, fallback_calls_quiet.
      + discriminate.
      + discriminate.
    - do 2 eexists. split; [|split; [|split]].
      + intros t. apply (run_fallback_raises lib _ _ _ _ _ t font e); assumption.
      + apply Hfb, fallback_calls_quiet.
      + intros e' [= <-]. right. exists font. split; [exact Hfont|].
        right. left. auto.
      + discriminate. }
  destruct (textlength lib font text) as [q|e] eqn:Hlen.
  2:{ apply (Hother e). now left. }
  destruct (getmetrics lib font) as [[a d]|e] eqn:Hmet.
  - apply (Hmeasured _ _ (measured_fallback lib font text q a d Hbb Hlen Hmet)).
  - apply (Hother e). right. now exists q.
Qed.

End Cases.

(** With [textbbox] missing, every run starts the same way. *)
Lemma run_fallback_shape
    (lib : Pillow) (text font_path : str) (font_size : Z)
    (text_color bg_color : RGBA) (font : Font lib) :
  truetype lib font_path font_size = Return font ->
  textbbox lib font (0, 0) text = Raise AttributeError ->
  exists o evs,
    forall t,
      text_to_true_pixel_art lib text font_path font_size text_color bg_color t
      = (o, t ++ prelude text font_path font_size
                   ([Called (textbbox_call (0, 0) text); St_warning fallback_msg]
                    ++ evs)).
Proof.
  intros Hfont Hbb.
  assert (Hmeasured : forall q a d,
             textlength lib font text = Return q ->
             getmetrics lib font = Return (a, d) ->
             exists o evs,
               forall t,
                 text_to_true_pixel_art lib text font_path font_size
                   text_color bg_color t
                 = (o, t ++ prelude text font_path font_size
                              ([Called (textbbox_call (0, 0) text);
                                St_warning fallback_msg] ++ evs))).
  { intros q a d Hlen Hmet.
    pose proof (measured_fallback lib font text q a d Hbb Hlen Hmet) as Hm.
    set (bbox := (0, 0, int q, a + d)) in *.
    assert (Hdeg : box_width bbox <= 0 \/ box_height bbox <= 0 ->
                   exists o evs,
                     forall t,
                       text_to_true_pixel_art lib text font_path font_size
                         text_color bg_color t
                       = (o, t ++ prelude text font_path font_size
                                    ([Called (textbbox_call (0, 0) text);
                                      St_warning fallback_msg] ++ evs))).
    { intros Hdeg. do 2 eexists. intros t.
      rewrite (run_degenerate lib _ _ _ _ _ t font bbox _ Hfont Hm Hdeg).
      unfold prelude. cbn [app]. reflexivity. }
    destruct (Z_lt_le_dec 0 (box_width bbox)) as [Hw|Hw]; [|now apply Hdeg; left].
    destruct (Z_lt_le_dec 0 (box_height bbox)) as [Hh|Hh]; [|now apply Hdeg; right].
    destruct (refuses lib (box_width bbox, box_height bbox)) as [e|] eqn:Halloc.
    { do 2 eexists. intros t.
      rewrite (run_allocation_raises lib _ _ _ _ _ t font bbox _ e
                 Hfont Hm Hw Hh Halloc).
      unfold prelude. cbn [app]. reflexivity. }
    destruct (draw_text lib font (draw_origin bbox) text text_color
                        (blank bbox bg_color)) as [drawn|e] eqn:Hdraw.
    - do 2 eexists. intros t.
      rewrite (run_render lib _ _ _ _ _ t font bbox _ drawn Hfont Hm Hw Hh Hdraw).
      unfold prelude, render_events. cbn [app]. reflexivity.
    - do 2 eexists. intros t.
      rewrite (run_draw_raises lib _ _ _ _ _ t font bbox _ e
                 Hfont Hm Hw Hh Halloc Hdraw).
      unfold prelude. cbn [app]. reflexivity. }
  assert (Hother : forall e,
             textlength lib font text = Raise e
             \/ (exists q, textlength lib font text = Return q
                           /\ getmetrics lib font = Raise e) ->
             exists o evs,
               forall t,
                 text_to_true_pixel_art lib text font_path font_size
                   text_color bg_color t
                 = (o, t ++ prelude text font_path font_size
                              ([Called (textbbox_call (0, 0) text);
                                St_warning fallback_msg] ++ evs))).
  { intros e Hcase. destruct (exn_eq_dec e AttributeError) as [->|He].
    - do 2 eexists. intros t.
      now apply run_fallback_missing with (font := font).
    - do 2 eexists. intros t.
      apply (run_fallback_raises lib _ _ _ _ _ t font e); assumption. }
  destruct (textlength lib font text) as [q|e] eqn:Hlen.
  2:{ apply (Hother e). now left. }
  destruct (getmetrics lib font) as [[a d]|e] eqn:Hmet.
  - now apply (Hmeasured q a d).
  - apply (Hother e). right. now exists q.
Qed.

(** ** The paths are all there is *)

Section AllPaths.

Variable lib : Pillow.
Variables (text font_path : str) (font_size : Z) (text_color bg_color : RGBA).

(** A path computes what the function computes. *)
Lemma run_path_sound (o : outcome (option Image)) (evs : list event) :
  run_path lib text font_path font_size text_color bg_color o evs ->
  forall t,
    text_to_true_pixel_art lib text font_path font_size text_color bg_color t
    = (o, t ++ evs).
Proof.
  intros Hp t. destruct Hp.
  - now apply run_font_missing.
  - now apply run_font_raises.
  - now apply run_textbbox_raises with (font := font).
  - now apply run_fallback_missing with (font := font).
  - now apply run_fallback_raises with (font := font).
  - now apply run_degenerate with (font := font) (bbox := bbox).
  - now apply run_render with (font := font).
  - now apply run_allocation_raises with (font := font).
  - now apply run_draw_raises with (font := font).
Qed.

(** Every run follows one of the paths. *)
Lemma run_path_exists :
  exists o evs, run_path lib text font_path font_size text_color bg_color o evs.
Proof.
  destruct (truetype lib font_path font_size) as [font|e] eqn:Hfont.
  2:{ destruct (exn_eq_dec e IOError) as [->|He].
      - do 2 eexists. now apply path_font_missing.
      - do 2 eexists. eapply path_font_raises; eauto. }
  assert (Hmeasured : forall bbox evs, measured lib font text bbox evs ->
    exists o evs',
      run_path lib text font_path font_size text_color bg_color o evs').
  { intros bbox evs Hm.
    destruct (Z_lt_le_dec 0 (box_width bbox)) as [Hw|Hw].
    2:{ do 2 eexists. eapply path_degenerate; eauto. }
    destruct (Z_lt_le_dec 0 (box_height bbox)) as [Hh|Hh].
    2:{ do 2 eexists. eapply path_degenerate; eauto. }
    destruct (refuses lib (box_width bbox, box_height bbox)) as [e|] eqn:Halloc.
    { do 2 eexists. eapply path_allocation_raises; eauto. }
    destruct (draw_text lib font (draw_origin bbox) text text_color
                        (blank bbox bg_color)) as [drawn|e] eqn:Hdraw.
    - do 2 eexists. eapply path_render; eauto.
    - do 2 eexists. eapply path_draw_raises; eauto. }
  destruct (textbbox lib font (0, 0) text) as [bbox|e] eqn:Hbb.
  { apply (Hmeasured bbox _ (measured_precise lib font text bbox Hbb)). }
  destruct (exn_eq_dec e AttributeError) as [->|He].
  2:{ do 2 eexists. eapply path_textbbox_raises; eauto. }
  assert (Hother : forall e,
    textlength lib font text = Raise e
    \/ (exists q, textlength lib font text = Return q
                  /\ getmetrics lib font = Raise e) ->
    exists o evs',
      run_path lib text font_path font_size text_color bg_color o evs').
  { intros e Hcase. destruct (exn_eq_dec e AttributeError) as [->|He].
    - do 2 eexists. eapply path_fallback_missing; eauto.
    - do 2 eexists. eapply path_fallback_raises; eauto. }
  destruct (textlength lib font text) as [q|e] eqn:Hlen.
  2:{ apply (Hother e). now left. }
  destruct (getmetrics lib font) as [[a d]|e] eqn:Hmet.
  - apply (Hmeasured _ _ (measured_fallback lib font text q a d Hbb Hlen Hmet)).
  - apply (Hother e). right. now exists q.
Qed.

(** What a run gave back and added came about on one of the paths. *)
Lemma run_path_inv (t : trace) (o : outcome (option Image)) (t' : trace) :
  text_to_true_pixel_art lib text font_path font_size text_color bg_color t
  = (o, t') ->
  exists evs,
    t' = t ++ evs
    /\ run_path lib text font_path font_size text_color bg_color o evs.
Proof.
  intros Hrun. destruct run_path_exists as [o' [evs Hp]].
  rewrite (run_path_sound o' evs Hp t) in Hrun. injection Hrun as <- <-.
  now exists evs.
Qed.

End AllPaths.

(** ** The bitmap font keeps alpha positive *)

Lemma DIV255_range (a : Z) :
  255 <= a <= 255 * 255 -> 1 <= Bitmap.DIV255 a <= 255.
Proof.
  intros Ha. unfold Bitmap.DIV255. cbv zeta.
  rewrite !Z.shiftr_div_pow2 by lia. change (2 ^ 8) with 256.
  assert (H1 : 1 <= (a + 128) / 256 <= 254).
  { split; [apply Z.div_le_lower_bound; lia|].
    apply Z.lt_succ_r. apply Z.div_lt_upper_bound; lia. }
  split; [apply Z.div_le_lower_bound; lia|].
  apply Z.lt_succ_r. apply Z.div_lt_upper_bound; lia.
Qed.

Lemma coverage_range (c : N) : 0 <= Bitmap.coverage c <= 255.
Proof.
  unfold Bitmap.coverage.
  destruct (c =? 32)%N; [lia|]. destruct (ascii_isalnum c); lia.
Qed.

Lemma mask_at_range (xy : Z * Z) (text : str) (x y : Z) :
  0 <= Bitmap.mask_at xy text x y <= 255.
Proof.
  unfold Bitmap.mask_at. destruct xy as [ox oy].
  destruct ((y =? oy + Bitmap.bearing) && (0 <=? x - ox)); [|lia].
  apply coverage_range.
Qed.

Lemma channel_range (b : byte) : 0 <= Bitmap.channel b <= 255.
Proof.
  unfold Bitmap.channel. pose proof (Byte.to_N_bounded b). lia.
Qed.

Lemma to_channel_value (z : Z) :
  0 <= z <= 255 -> Byte.to_N (Bitmap.to_channel z) = Z.to_N z.
Proof.
  intros Hz. unfold Bitmap.to_channel.
  pose proof (Byte.to_of_N_option_map (Z.to_N z)) as H.
  destruct (N.leb_spec (Z.to_N z) 255) as [_|Hgt]; [|lia].
  destruct (Byte.of_N (Z.to_N z)) as [b|]; [|discriminate H].
  now injection H.
Qed.

Lemma fill_mask_keeps_alpha (mask : Z) (out ink : RGBA) :
  0 <= mask <= 255 ->
  (0 < alpha out)%N -> (0 < alpha ink)%N ->
  (0 < alpha (Bitmap.fill_mask mask out ink))%N.
Proof.
  destruct out as [[[r g] b] a], ink as [[[ir ig] ib] ia].
  unfold alpha, Bitmap.fill_mask. intros Hm Ha Hia.
  pose proof (channel_range a) as Ra. pose proof (channel_range ia) as Ria.
  assert (Ha' : 1 <= Bitmap.channel a) by (unfold Bitmap.channel; lia).
  assert (Hia' : 1 <= Bitmap.channel ia) by (unfold Bitmap.channel; lia).
  assert (Hb : 1 <= Bitmap.BLEND mask (Bitmap.channel a) (Bitmap.channel ia) <= 255).
  { unfold Bitmap.BLEND. apply DIV255_range. nia. }
  rewrite to_channel_value by lia. lia.
Qed.

Lemma Bitmap_keeps_alpha (b : Bitmap.build) : keeps_alpha (Bitmap.pillow b).
Proof.
  intros f xy s fill img img' Hdraw Hfill Himg.
  cbn in Hdraw. unfold Bitmap.draw_text in Hdraw. injection Hdraw as <-.
  unfold Bitmap.paint. cbn [pixels].
  apply Forall_forall. intros p Hp.
  apply in_map_iff in Hp as [[k old] [<- Hin]]. cbn [fst snd].
  apply fill_mask_keeps_alpha; [apply mask_at_range| |exact Hfill].
  apply in_combine_r in Hin. rewrite Forall_forall in Himg. now apply Himg.
Qed.

(** ** Pixels by their coordinates *)

Lemma pixel_at_inside (img : Image) (x y : Z) (p : RGBA) :
  pixel_at img x y = Some p -> 0 <= x < width img /\ 0 <= y < height img.
Proof.
  unfold pixel_at.
  destruct (Z.leb_spec 0 x), (Z.ltb_spec x (width img)),
           (Z.leb_spec 0 y), (Z.ltb_spec y (height img));
    cbn [andb]; try discriminate; lia.
Qed.

Lemma pixel_at_index (img : Image) (x y : Z) :
  0 <= x < width img -> 0 <= y < height img ->
  pixel_at img x y = nth_error (pixels img) (Z.to_nat (y * width img + x)).
Proof.
  intros Hx Hy. unfold pixel_at.
  destruct (Z.leb_spec 0 x), (Z.ltb_spec x (width img)),
           (Z.leb_spec 0 y), (Z.ltb_spec y (height img));
    cbn [andb]; try lia; reflexivity.
Qed.

Lemma pixel_at_blank (bbox : Z * Z * Z * Z) (c : RGBA) (x y : Z) :
  0 <= x < box_width bbox -> 0 <= y < box_height bbox ->
  pixel_at (blank bbox c) x y = Some c.
Proof.
  destruct bbox as [[[l tp] r] b]. unfold box_width, box_height.
  intros Hx Hy. rewrite pixel_at_index by (unfold width, height; cbn; lia).
  unfold width. cbn [blank size pixels fst].
  apply nth_error_repeat. apply Z2Nat.inj_lt; nia.
Qed.

Lemma pixel_at_map (f : RGBA -> RGBA) (img : Image) (x y : Z) :
  pixel_at (mkImage (size img) (map f (pixels img))) x y
  = option_map f (pixel_at img x y).
Proof.
  unfold pixel_at, width, height. cbn [size pixels].
  destruct ((0 <=? x) && (x <? fst (size img)) && (0 <=? y) && (y <? snd (size img)));
    [apply nth_error_map|reflexivity].
Qed.

(** ** Where the bitmap font puts its ink *)

Lemma DIV255_zero : Bitmap.DIV255 0 = 0.
Proof. reflexivity. Qed.

Lemma DIV255_positive (a : Z) :
  128 <= a <= 255 * 255 -> 1 <= Bitmap.DIV255 a <= 255.
Proof.
  intros Ha. unfold Bitmap.DIV255. cbv zeta.
  rewrite !Z.shiftr_div_pow2 by lia. change (2 ^ 8) with 256.
  assert (H1 : 1 <= (a + 128) / 256 <= 254).
  { split; [apply Z.div_le_lower_bound; lia|].
    apply Z.lt_succ_r. apply Z.div_lt_upper_bound; lia. }
  split; [apply Z.div_le_lower_bound; lia|].
  apply Z.lt_succ_r. apply Z.div_lt_upper_bound; lia.
Qed.

(** A glyph covers its pixel not at all, half or fully. *)
Lemma mask_at_values (xy : Z * Z) (text : str) (x y : Z) :
  Bitmap.mask_at xy text x y = 0 \/ 128 <= Bitmap.mask_at xy text x y <= 255.
Proof.
  unfold Bitmap.mask_at. destruct xy as [ox oy].
  destruct ((y =? oy + Bitmap.bearing) && (0 <=? x - ox)); [|now left].
  unfold Bitmap.coverage.
  destruct (_ =? 32)%N; [now left|]. destruct (ascii_isalnum _); right; lia.
Qed.

Lemma mask_at_shift (ox oy : Z) (text : str) (x y : Z) :
  Bitmap.mask_at (ox, oy) text x y = Bitmap.mask_at (0, 0) text (x - ox) (y - oy).
Proof.
  unfold Bitmap.mask_at. rewrite Z.sub_0_r.
  destruct (Z.eqb_spec y (oy + Bitmap.bearing)),
           (Z.eqb_spec (y - oy) (0 + Bitmap.bearing)); try lia; reflexivity.
Qed.

(** On a pixel of alpha 0 the blend leaves positive alpha exactly under
    the mask. *)
Lemma fill_mask_on_clear (mask : Z) (out ink : RGBA) :
  mask = 0 \/ 128 <= mask <= 255 ->
  alpha out = 0%N -> (0 < alpha ink)%N ->
  (0 <? alpha (Bitmap.fill_mask mask out ink))%N = (0 <? mask).
Proof.
  destruct out as [[[r g] b] a], ink as [[[ir ig] ib] ia].
  unfold alpha, Bitmap.fill_mask. intros Hm Ha Hia.
  pose proof (channel_range ia) as Ria.
  assert (Ha' : Bitmap.channel a = 0) by (unfold Bitmap.channel; lia).
  assert (Hia' : 1 <= Bitmap.channel ia) by (unfold Bitmap.channel; lia).
  unfold Bitmap.BLEND. rewrite Ha'. cbn [Z.mul Z.add].
  destruct Hm as [-> | Hm].
  - rewrite Z.mul_0_r, DIV255_zero. reflexivity.
  - pose proof (DIV255_positive (Bitmap.channel ia * mask)) as Hb.
    assert (Hr : 128 <= Bitmap.channel ia * mask <= 255 * 255) by nia.
    specialize (Hb Hr). rewrite to_channel_value by lia.
    destruct (N.ltb_spec 0 (Z.to_N (Bitmap.DIV255 (Bitmap.channel ia * mask))));
      destruct (Z.ltb_spec 0 mask); try lia; reflexivity.
Qed.

Lemma nth_error_combine_seq (A : Type) (l : list A) (s k : nat) :
  nth_error (combine (seq s (length l)) l) k
  = option_map (fun a => ((s + k)%nat, a)) (nth_error l k).
Proof.
  revert s k. induction l as [|a l IH]; intros s k.
  - destruct k; reflexivity.
  - destruct k as [|k]; cbn [length seq combine nth_error option_map].
    + now rewrite Nat.add_0_r.
    + rewrite IH. now rewrite Nat.add_succ_r.
Qed.

(** Painting, pixel by pixel. *)
Lemma paint_pixel_at (xy : Z * Z) (text : str) (fill : RGBA) (img : Image)
    (x y : Z) (p : RGBA) :
  pixel_at img x y = Some p ->
  pixel_at (Bitmap.paint xy text fill img) x y
  = Some (Bitmap.fill_mask (Bitmap.mask_at xy text x y) p fill).
Proof.
  intros Hp. destruct (pixel_at_inside _ _ _ _ Hp) as [Hx Hy].
  rewrite pixel_at_index in Hp by assumption.
  rewrite pixel_at_index by assumption.
  change (width (Bitmap.paint xy text fill img)) with (width img).
  unfold Bitmap.paint. cbv zeta. cbn [pixels].
  rewrite nth_error_map, nth_error_combine_seq, Hp. cbn [option_map fst snd Nat.add].
  rewrite Z2Nat.id by nia.
  assert (Hcol : (y * width img + x) mod width img = x).
  { rewrite Z.add_comm, Z.mod_add by lia. apply Z.mod_small. lia. }
  assert (Hrow : (y * width img + x) / width img = y).
  { rewrite Z.add_comm, Z.div_add by lia. rewrite Z.div_small by lia. lia. }
  now rewrite Hcol, Hrow.
Qed.

(** The coverage of the bitmap font, relative to the anchor. *)
Lemma Bitmap_draw_text_inks (font : Z) (text : str) (fill : RGBA) :
  (0 < alpha fill)%N ->
  forall xy img img',
    Bitmap.draw_text font xy text fill img = Return img' ->
    forall x y p,
      pixel_at img x y = Some p -> alpha p = 0%N ->
      exists p',
        pixel_at img' x y = Some p'
        /\ (0 <? alpha p')%N
           = (0 <? Bitmap.mask_at (0, 0) text (x - fst xy) (y - snd xy)).
Proof.
  intros Hfill [ox oy] img img' Hdraw x y p Hp Hclear.
  unfold Bitmap.draw_text in Hdraw. injection Hdraw as <-.
  eexists. split; [apply paint_pixel_at; exact Hp|].
  rewrite fill_mask_on_clear by (auto using mask_at_values).
  cbn [fst snd]. now rewrite mask_at_shift.
Qed.

Lemma Bitmap_inks (b : Bitmap.build) (font : Z) (text : str) (fill : RGBA) :
  (0 < alpha fill)%N ->
  inks (Bitmap.pillow b) font text fill
       (fun x y => 0 <? Bitmap.mask_at (0, 0) text x y).
Proof. exact (Bitmap_draw_text_inks font text fill). Qed.

Lemma Layout_inks (font : Z) (text : str) (fill : RGBA) :
  (0 < alpha fill)%N ->
  inks Layout.pillow font text fill
       (fun x y => 0 <? Bitmap.mask_at (0, 0) text x y).
Proof. exact (Bitmap_draw_text_inks font text fill). Qed.

(** * The properties of the renderer *)

(** C1. Quantization is binary.  On the rasterization path (measured
    width and height both positive, the drawing done), the call returns a
    buffer with one pixel per pixel drawn; a pixel whose alpha after the
    drawing is positive is exactly [text_color], a pixel whose alpha is 0
    is exactly [bg_color]; hence every pixel of the buffer is one of the
    two colours. *)
Theorem quantization_is_binary
    (lib : Pillow) (text font_path : str) (font_size : Z)
    (text_color bg_color : RGBA) (t : trace)
    (font : Font lib) (bbox : Z * Z * Z * Z) (evs : list event) (drawn : Image) :
  truetype lib font_path font_size = Return font ->
  measured lib font text bbox evs ->
  0 < box_width bbox -> 0 < box_height bbox ->
  draw_text lib font (draw_origin bbox) text text_color (blank bbox bg_color)
  = Return drawn ->
  exists out,
    fst (text_to_true_pixel_art lib text font_path font_size text_color bg_color t)
    = Return (Some out)
    /\ length (pixels out) = length (pixels drawn)
    /\ (forall i item,
           nth_error (pixels drawn) i = Some item ->
           nth_error (pixels out) i
           = Some (if (0 <? alpha item)%N then text_color else bg_color))
    /\ Forall (fun p => p = text_color \/ p = bg_color) (pixels out).
Proof.
  intros Hfont Hm Hw Hh Hdraw.
  eexists. rewrite (run_render lib _ _ _ _ _ t font bbox evs drawn) by assumption.
  cbn [fst]. split; [reflexivity|]. cbn [pixels].
  split; [apply length_map|]. split.
  - intros i item Hi. rewrite nth_error_map, Hi. reflexivity.
  - apply quantized_two_valued.
Qed.

Lemma quantization_is_binary_witness :
  exists out,
    fst (text_to_true_pixel_art (Bitmap.pillow Bitmap.current) (lit "a.b")
           Bitmap.font_file_path 30 DEFAULT_TEXT_COLOR DEFAULT_BG_COLOR [])
    = Return (Some out)
    /\ length (pixels out)
       = length [(x00, x00, x00, xff); (x00, x00, x00, x80); (x00, x00, x00, xff)]
    /\ (forall i item,
           nth_error [(x00, x00, x00, xff); (x00, x00, x00, x80); (x00, x00, x00, xff)] i
           = Some item ->
           nth_error (pixels out) i
           = Some (if (0 <? alpha item)%N then DEFAULT_TEXT_COLOR else DEFAULT_BG_COLOR))
    /\ Forall (fun p => p = DEFAULT_TEXT_COLOR \/ p = DEFAULT_BG_COLOR) (pixels out).
Proof.
  apply (quantization_is_binary (Bitmap.pillow Bitmap.current) (lit "a.b")
           Bitmap.font_file_path 30 DEFAULT_TEXT_COLOR DEFAULT_BG_COLOR []
           30 (0, 2, 3, 3) [Called (textbbox_call (0, 0) (lit "a.b"))]
           (mkImage (3, 1)
              [(x00, x00, x00, xff); (x00, x00, x00, x80); (x00, x00, x00, xff)])).
  - reflexivity.
  - apply measured_precise. reflexivity.
  - reflexivity.
  - reflexivity.
  - reflexivity.
Defined.

(** Every buffer the call returns, on whatever path, holds the two
    colours only. *)
Corollary every_returned_buffer_is_two_valued
    (lib : Pillow) (text font_path : str) (font_size : Z)
    (text_color bg_color : RGBA) (t : trace) (out : Image) :
  fst (text_to_true_pixel_art lib text font_path font_size text_color bg_color t)
  = Return (Some out) ->
  Forall (fun p => p = text_color \/ p = bg_color) (pixels out).
Proof.
  destruct (run_cases lib text font_path font_size text_color bg_color)
    as [o [evs [Hrun [_ [_ Htwo]]]]].
  rewrite Hrun. cbn [fst]. apply Htwo.
Qed.

(** C2. Degenerate text.  When the measured extent has width or height
    at most 0, the call returns normally with the 1x1 buffer holding
    [bg_color]; nothing is drawn and no error is reported: given a font
    that loads, this input never ends in the font error. *)
Theorem degenerate_text_gives_background_pixel
    (lib : Pillow) (text font_path : str) (font_size : Z)
    (text_color bg_color : RGBA) (t : trace)
    (font : Font lib) (bbox : Z * Z * Z * Z) (evs : list event) :
  truetype lib font_path font_size = Return font ->
  measured lib font text bbox evs ->
  box_width bbox <= 0 \/ box_height bbox <= 0 ->
  exists done,
    text_to_true_pixel_art lib text font_path font_size text_color bg_color t
    = (Return (Some (mkImage (1, 1) [bg_color])), t ++ done)
    /\ existsb is_drawing done = false
    /\ existsb is_error done = false
    /\ In (St_warning (degenerate_msg text)) done.
Proof.
  intros Hfont Hm Hdeg.
  rewrite (run_degenerate lib _ _ _ _ _ t font bbox evs) by assumption.
  eexists. split; [reflexivity|].
  destruct (measured_quiet lib font text bbox evs Hm) as [Hd He].
  unfold prelude. rewrite !existsb_app, Hd, He.
  split; [reflexivity|]. split; [reflexivity|].
  apply in_or_app. right. now left.
Qed.

Lemma degenerate_text_gives_background_pixel_witness :
  exists done,
    text_to_true_pixel_art (Bitmap.pillow Bitmap.current) (lit "  ")
      Bitmap.font_file_path 30 DEFAULT_TEXT_COLOR DEFAULT_BG_COLOR []
    = (Return (Some (mkImage (1, 1) [DEFAULT_BG_COLOR])), [] ++ done)
    /\ existsb is_drawing done = false
    /\ existsb is_error done = false
    /\ In (St_warning (degenerate_msg (lit "  "))) done.
Proof.
  apply (degenerate_text_gives_background_pixel (Bitmap.pillow Bitmap.current)
           (lit "  ") Bitmap.font_file_path 30 DEFAULT_TEXT_COLOR DEFAULT_BG_COLOR []
           30 (0, 0, 0, 0) [Called (textbbox_call (0, 0) (lit "  "))]).
  - reflexivity.
  - apply measured_precise. reflexivity.
  - left. cbn. lia.
Defined.

(** C3, as stated, fails: [textbbox] measures [" a b"] from its anchor,
    so the measured box begins one column left of the first ink.  The
    buffer is 4 pixels wide and its first column is background: the ink's
    top-left corner is at column 1, not at [(0, 0)]. *)
Lemma leading_space_leaves_an_empty_column :
  ~ ink_lands_at_origin Layout.pillow (lit " a b")
      Bitmap.font_file_path DEFAULT_FONT_SIZE DEFAULT_TEXT_COLOR DEFAULT_BG_COLOR.
Proof.
  intros H.
  specialize (H DEFAULT_FONT_SIZE (0, 2, 4, 3)
                [Called (textbbox_call (0, 0) (lit " a b"))] []
                (mkImage (4, 1)
                   [DEFAULT_BG_COLOR; DEFAULT_TEXT_COLOR;
                    DEFAULT_BG_COLOR; DEFAULT_TEXT_COLOR])
                eq_refl
                (measured_precise Layout.pillow DEFAULT_FONT_SIZE
                   (lit " a b") (0, 2, 4, 3) eq_refl)
                eq_refl eq_refl eq_refl).
  destruct H as [_ [_ [[y Hy] _]]].
  destruct (pixel_at_inside _ _ _ _ Hy) as [_ Hrow].
  unfold height in Hrow. cbn [size snd] in Hrow.
  assert (y = 0) by lia. subst y. discriminate Hy.
Qed.

(** C3, amended.  For a non-degenerate measured box [(bbox0, bbox1, bbox2,
    bbox3)] the returned buffer is [bbox2 - bbox0] wide and [bbox3 - bbox1]
    high, with one pixel per cell; the text is drawn exactly once, at the
    origin [(- bbox0, - bbox1)]; the buffer is the quantization of that
    drawing.  With a text colour of positive alpha on a background of
    alpha 0 the buffer shows the window that the measured box cuts out of
    the text's ink: pixel [(x, y)] is [text_color] where the text,
    anchored at [(0, 0)], leaves ink at [(x + bbox0, y + bbox1)], and
    [bg_color] elsewhere.  So the first column of the buffer holds ink exactly when
    the left column of the measured box does, and the first row exactly
    when its top row does: the ink's top-left corner is at [(0, 0)] when
    the measured box is tight about the ink on the left and on top, and
    only then. *)
Theorem buffer_is_the_measured_box
    (lib : Pillow) (text font_path : str) (font_size : Z)
    (text_color bg_color : RGBA) (t : trace)
    (font : Font lib) (bbox0 bbox1 bbox2 bbox3 : Z) (evs : list event)
    (drawn : Image) :
  truetype lib font_path font_size = Return font ->
  measured lib font text (bbox0, bbox1, bbox2, bbox3) evs ->
  0 < bbox2 - bbox0 -> 0 < bbox3 - bbox1 ->
  draw_text lib font (- bbox0, - bbox1) text text_color
            (blank (bbox0, bbox1, bbox2, bbox3) bg_color)
  = Return drawn ->
  exists out done,
    text_to_true_pixel_art lib text font_path font_size text_color bg_color t
    = (Return (Some out), t ++ done)
    /\ width out = bbox2 - bbox0
    /\ height out = bbox3 - bbox1
    /\ length (pixels out) = Z.to_nat ((bbox2 - bbox0) * (bbox3 - bbox1))
    /\ pixels out = map (quantize_pixel text_color bg_color) (pixels drawn)
    /\ filter is_drawing done
       = [Called (draw_text_call (- bbox0, - bbox1) text text_color)]
    /\ (forall m : Z -> Z -> bool,
           inks lib font text text_color m ->
           (0 < alpha text_color)%N -> alpha bg_color = 0%N ->
           (forall x y,
               0 <= x < bbox2 - bbox0 -> 0 <= y < bbox3 - bbox1 ->
               pixel_at out x y
               = Some (if m (x + bbox0) (y + bbox1) then text_color else bg_color))
           /\ (ink_at_column out text_color 0
               <-> exists y, bbox1 <= y < bbox3 /\ m bbox0 y = true)
           /\ (ink_at_row out text_color 0
               <-> exists x, bbox0 <= x < bbox2 /\ m x bbox1 = true)).
Proof.
  intros Hfont Hm Hw Hh Hdraw.
  destruct (draw_text_inplace lib _ _ _ _ _ _ Hdraw) as [Hsize Hlen].
  cbn [blank size pixels] in Hsize, Hlen. rewrite repeat_length in Hlen.
  exists (mkImage (size drawn)
                  (map (quantize_pixel text_color bg_color) (pixels drawn))).
  eexists.
  rewrite (run_render lib _ _ _ _ _ t font (bbox0, bbox1, bbox2, bbox3) evs drawn)
    by assumption.
  split; [reflexivity|].
  unfold width, height. cbn [size pixels]. rewrite Hsize. cbn [fst snd].
  split; [reflexivity|]. split; [reflexivity|].
  split; [now rewrite length_map|]. split; [reflexivity|]. split.
  - unfold prelude, render_events. rewrite !filter_app.
    destruct (measured_quiet lib font text _ evs Hm) as [Hd _].
    assert (Hnone : filter is_drawing evs = []).
    { clear - Hd. induction evs as [|ev rest IH]; [reflexivity|].
      cbn in Hd |- *. destruct (is_drawing ev); [discriminate|]. now apply IH. }
    rewrite Hnone. reflexivity.
  - intros m Hinks Hfill Hclear. rewrite <- Hsize.
    assert (Hne : text_color <> bg_color).
    { intros Heq. rewrite Heq, Hclear in Hfill. lia. }
    assert (Hpix : forall x y,
               0 <= x < bbox2 - bbox0 -> 0 <= y < bbox3 - bbox1 ->
               pixel_at (mkImage (size drawn)
                           (map (quantize_pixel text_color bg_color) (pixels drawn)))
                        x y
               = Some (if m (x + bbox0) (y + bbox1) then text_color else bg_color)).
    { intros x y Hx Hy.
      pose proof (pixel_at_blank (bbox0, bbox1, bbox2, bbox3) bg_color x y Hx Hy)
        as Hblank.
      destruct (Hinks _ _ _ Hdraw x y bg_color Hblank Hclear)
        as [p' [Hp' Hcov]].
      rewrite pixel_at_map, Hp'. cbn [option_map fst snd] in *.
      unfold quantize_pixel. rewrite Hcov, !Z.sub_opp_r. reflexivity. }
    split; [exact Hpix|]. split.
    + split.
      * intros [y Hy]. destruct (pixel_at_inside _ _ _ _ Hy) as [_ Hrow].
        unfold height in Hrow. cbn [size] in Hrow. rewrite Hsize in Hrow.
        cbn [snd] in Hrow.
        rewrite Hpix in Hy by lia. rewrite Z.add_0_l in Hy.
        exists (y + bbox1). split; [lia|].
        destruct (m bbox0 (y + bbox1)); [reflexivity|].
        injection Hy as Hy. now elim Hne.
      * intros [y [Hy Hcov]]. exists (y - bbox1).
        rewrite Hpix by lia.
        replace (0 + bbox0) with bbox0 by lia.
        replace (y - bbox1 + bbox1) with y by lia.
        now rewrite Hcov.
    + split.
      * intros [x Hx]. destruct (pixel_at_inside _ _ _ _ Hx) as [Hcol _].
        unfold width in Hcol. cbn [size] in Hcol. rewrite Hsize in Hcol.
        cbn [fst] in Hcol.
        rewrite Hpix in Hx by lia. rewrite Z.add_0_l in Hx.
        exists (x + bbox0). split; [lia|].
        destruct (m (x + bbox0) bbox1); [reflexivity|].
        injection Hx as Hx. now elim Hne.
      * intros [x [Hx Hcov]]. exists (x - bbox0).
        rewrite Hpix by lia.
        replace (0 + bbox1) with bbox1 by lia.
        replace (x - bbox0 + bbox0) with x by lia.
        now rewrite Hcov.
Qed.

(** The bitmap font's own box is tight: [" a b"] is measured as
    [(1, 2, 4, 3)], and the ink of the returned buffer begins at
    [(0, 0)]. *)
Lemma buffer_is_the_measured_box_witness :
  exists out done,
    text_to_true_pixel_art (Bitmap.pillow Bitmap.current) (lit " a b")
      Bitmap.font_file_path 30 DEFAULT_TEXT_COLOR DEFAULT_BG_COLOR []
    = (Return (Some out), [] ++ done)
    /\ width out = 4 - 1
    /\ height out = 3 - 2
    /\ pixels out
       = map (quantize_pixel DEFAULT_TEXT_COLOR DEFAULT_BG_COLOR)
             [(x00, x00, x00, xff); (x00, x00, x00, x00); (x00, x00, x00, xff)]
    /\ filter is_drawing done
       = [Called (draw_text_call (- (1), - (2)) (lit " a b") DEFAULT_TEXT_COLOR)]
    /\ ink_at_column out DEFAULT_TEXT_COLOR 0
    /\ ink_at_row out DEFAULT_TEXT_COLOR 0.
Proof.
  destruct (buffer_is_the_measured_box (Bitmap.pillow Bitmap.current) (lit " a b")
              Bitmap.font_file_path 30 DEFAULT_TEXT_COLOR DEFAULT_BG_COLOR []
              30 1 2 4 3 [Called (textbbox_call (0, 0) (lit " a b"))]
              (mkImage (3, 1)
                 [(x00, x00, x00, xff); (x00, x00, x00, x00); (x00, x00, x00, xff)]))
    as [out [done [Hrun [Hwidth [Hheight [_ [Hpixels [Hdrawn Hink]]]]]]]].
  - reflexivity.
  - apply measured_precise. reflexivity.
  - reflexivity.
  - reflexivity.
  - reflexivity.
  - destruct (Hink (fun x y => 0 <? Bitmap.mask_at (0, 0) (lit " a b") x y))
      as [_ [Hcolumn Hrow]].
    + apply Bitmap_inks. reflexivity.
    + reflexivity.
    + reflexivity.
    + exists out, done.
      split; [exact Hrun|]. split; [exact Hwidth|]. split; [exact Hheight|].
      split; [exact Hpixels|]. split; [exact Hdrawn|]. split.
      * apply Hcolumn. exists 2. split; [lia|reflexivity].
      * apply Hrow. exists 1. split; [lia|reflexivity].
Defined.

(** C4, as stated, fails: rendering the empty string shows a warning. *)
Lemma empty_text_shows_a_warning :
  ~ no_side_effects (Bitmap.pillow Bitmap.current) (lit "")
      Bitmap.font_file_path DEFAULT_FONT_SIZE DEFAULT_TEXT_COLOR DEFAULT_BG_COLOR.
Proof.
  intros H. specialize (H []). vm_compute in H. discriminate H.
Qed.

(** C4, amended.  The call is deterministic: what it returns and the
    events it adds are fixed by its arguments and by Pillow's answers,
    whatever came before it; besides the result, the only effects are
    Streamlit notices, each one of the four messages of the script; with
    precise metrics and a non-degenerate box it shows none. *)
Theorem rendering_is_deterministic
    (lib : Pillow) (text font_path : str) (font_size : Z)
    (text_color bg_color : RGBA) :
  exists o evs,
    (forall t,
        text_to_true_pixel_art lib text font_path font_size text_color bg_color t
        = (o, t ++ evs))
    /\ Forall (known_notice text font_path) evs
    /\ (forall font bbox,
           truetype lib font_path font_size = Return font ->
           textbbox lib font (0, 0) text = Return bbox ->
           0 < box_width bbox -> 0 < box_height bbox ->
           filter is_notice evs = []).
Proof.
  destruct (run_cases lib text font_path font_size text_color bg_color)
    as [o [evs [Hrun [Hknown _]]]].
  exists o, evs. split; [exact Hrun|]. split; [exact Hknown|].
  intros font bbox Hfont Hbb Hw Hh.
  pose proof (measured_precise lib font text bbox Hbb) as Hm.
  specialize (Hrun []). cbn [app] in Hrun.
  destruct (refuses lib (box_width bbox, box_height bbox)) as [e|] eqn:Halloc.
  { rewrite (run_allocation_raises lib _ _ _ _ _ [] font bbox _ e
               Hfont Hm Hw Hh Halloc) in Hrun.
    injection Hrun as _ <-. reflexivity. }
  destruct (draw_text lib font (draw_origin bbox) text text_color
                      (blank bbox bg_color)) as [drawn|e] eqn:Hdraw.
  - rewrite (run_render lib _ _ _ _ _ [] font bbox _ drawn Hfont Hm Hw Hh Hdraw)
      in Hrun.
    injection Hrun as _ <-. reflexivity.
  - rewrite (run_draw_raises lib _ _ _ _ _ [] font bbox _ e
               Hfont Hm Hw Hh Halloc Hdraw) in Hrun.
    injection Hrun as _ <-. reflexivity.
Qed.

(** C5, as stated, fails: with the colours of the script swapped, the
    pixel left of the gap is black in both buffers. *)
Lemma swapped_defaults_are_not_inverse :
  ~ swap_inverts (Bitmap.pillow Bitmap.current) (lit " a b")
      Bitmap.font_file_path DEFAULT_FONT_SIZE DEFAULT_TEXT_COLOR DEFAULT_BG_COLOR.
Proof.
  intros H.
  specialize (H DEFAULT_FONT_SIZE (1, 2, 4, 3)
                [Called (textbbox_call (0, 0) (lit " a b"))] []
                (mkImage (3, 1)
                   [(x00, x00, x00, xff); (x00, x00, x00, x00); (x00, x00, x00, xff)])
                (mkImage (3, 1)
                   [(x00, x00, x00, xff); (x00, x00, x00, x00); (x00, x00, x00, xff)])
                eq_refl
                (measured_precise (Bitmap.pillow Bitmap.current) DEFAULT_FONT_SIZE
                   (lit " a b") (1, 2, 4, 3) eq_refl)
                eq_refl eq_refl eq_refl eq_refl).
  destruct H as [_ [_ H]].
  destruct (H 0%nat (x00, x00, x00, xff) (x00, x00, x00, xff) eq_refl eq_refl)
    as [Hinv _].
  specialize (Hinv eq_refl). discriminate Hinv.
Qed.

(** C5, amended.  Swapping the two colours gives a buffer of the same
    shape.  At a pixel whose alpha after the drawing is positive in both
    renderings, or 0 in both, the swapped buffer holds the inverse colour;
    at a pixel where the two renderings differ in that respect it holds
    the same colour as the original.  So the swapped buffer is the
    pixel-wise inverse when the alpha coverage pattern is the same in
    both renderings. *)
Theorem swapped_colours
    (lib : Pillow) (text font_path : str) (font_size : Z)
    (text_color bg_color : RGBA) (t : trace)
    (font : Font lib) (bbox : Z * Z * Z * Z) (evs : list event)
    (drawn drawn' : Image) :
  truetype lib font_path font_size = Return font ->
  measured lib font text bbox evs ->
  0 < box_width bbox -> 0 < box_height bbox ->
  draw_text lib font (draw_origin bbox) text text_color (blank bbox bg_color)
  = Return drawn ->
  draw_text lib font (draw_origin bbox) text bg_color (blank bbox text_color)
  = Return drawn' ->
  exists out out',
    fst (text_to_true_pixel_art lib text font_path font_size text_color bg_color t)
    = Return (Some out)
    /\ fst (text_to_true_pixel_art lib text font_path font_size bg_color text_color t)
       = Return (Some out')
    /\ size out' = size out
    /\ length (pixels out') = length (pixels out)
    /\ (forall i item item',
           nth_error (pixels drawn) i = Some item ->
           nth_error (pixels drawn') i = Some item' ->
           exists p q,
             nth_error (pixels out) i = Some p
             /\ nth_error (pixels out') i = Some q
             /\ ((0 <? alpha item)%N = (0 <? alpha item')%N ->
                 (p = text_color -> q = bg_color) /\ (p = bg_color -> q = text_color))
             /\ ((0 <? alpha item)%N <> (0 <? alpha item')%N -> q = p))
    /\ (map (fun item => (0 <? alpha item)%N) (pixels drawn)
        = map (fun item => (0 <? alpha item)%N) (pixels drawn') ->
        colour_inverse text_color bg_color out out').
Proof.
  intros Hfont Hm Hw Hh Hdraw Hdraw'.
  destruct (draw_text_inplace lib _ _ _ _ _ _ Hdraw) as [Hsize Hlen].
  destruct (draw_text_inplace lib _ _ _ _ _ _ Hdraw') as [Hsize' Hlen'].
  assert (Hsame : size drawn' = size drawn).
  { rewrite Hsize, Hsize'. destruct bbox as [[[l tp] r] b]. reflexivity. }
  assert (Hcount : length (pixels drawn') = length (pixels drawn)).
  { rewrite Hlen, Hlen'. destruct bbox as [[[l tp] r] b]. cbn [blank pixels].
    now rewrite !repeat_length. }
  assert (Hpix : forall i item item',
             nth_error (pixels drawn) i = Some item ->
             nth_error (pixels drawn') i = Some item' ->
             exists p q,
               nth_error (map (quantize_pixel text_color bg_color) (pixels drawn)) i
               = Some p
               /\ nth_error (map (quantize_pixel bg_color text_color) (pixels drawn')) i
                  = Some q
               /\ ((0 <? alpha item)%N = (0 <? alpha item')%N ->
                   (p = text_color -> q = bg_color)
                   /\ (p = bg_color -> q = text_color))
               /\ ((0 <? alpha item)%N <> (0 <? alpha item')%N -> q = p)).
  { intros i item item' Hi Hi'. do 2 eexists.
    rewrite !nth_error_map, Hi, Hi'. cbn [option_map].
    split; [reflexivity|]. split; [reflexivity|]. unfold quantize_pixel.
    destruct (0 <? alpha item)%N, (0 <? alpha item')%N; split;
      try discriminate; try congruence; auto. }
  exists (mkImage (size drawn) (map (quantize_pixel text_color bg_color) (pixels drawn))),
         (mkImage (size drawn') (map (quantize_pixel bg_color text_color) (pixels drawn'))).
  rewrite (run_render lib _ _ _ text_color bg_color t font bbox evs drawn)
    by assumption.
  rewrite (run_render lib _ _ _ bg_color text_color t font bbox evs drawn')
    by assumption.
  cbn [fst size pixels].
  split; [reflexivity|]. split; [reflexivity|]. split; [exact Hsame|].
  split; [now rewrite !length_map|]. split; [exact Hpix|].
  intros Hpattern. unfold colour_inverse. cbn [size pixels].
  split; [now symmetry|]. split; [now rewrite !length_map|].
  intros i p q Hp Hq.
  rewrite nth_error_map in Hp, Hq.
  destruct (nth_error (pixels drawn) i) as [item|] eqn:Hi; [|discriminate Hp].
  destruct (nth_error (pixels drawn') i) as [item'|] eqn:Hi'; [|discriminate Hq].
  cbn [option_map] in Hp, Hq. injection Hp as <-. injection Hq as <-.
  assert (Hagree : (0 <? alpha item)%N = (0 <? alpha item')%N).
  { apply (f_equal (fun l => nth_error l i)) in Hpattern.
    rewrite !nth_error_map, Hi, Hi' in Hpattern. now injection Hpattern. }
  unfold quantize_pixel. rewrite Hagree.
  destruct (0 <? alpha item')%N; split; congruence.
Qed.

Lemma swapped_colours_witness :
  exists out out',
    fst (text_to_true_pixel_art (Bitmap.pillow Bitmap.current) (lit " a b")
           Bitmap.font_file_path 30 (x00, x00, x00, xff) (xff, xff, xff, xff) [])
    = Return (Some out)
    /\ fst (text_to_true_pixel_art (Bitmap.pillow Bitmap.current) (lit " a b")
              Bitmap.font_file_path 30 (xff, xff, xff, xff) (x00, x00, x00, xff) [])
       = Return (Some out')
    /\ size out' = size out
    /\ length (pixels out') = length (pixels out)
    /\ (forall i item item',
           nth_error [(x00, x00, x00, xff); (xff, xff, xff, xff); (x00, x00, x00, xff)] i
           = Some item ->
           nth_error [(xff, xff, xff, xff); (x00, x00, x00, xff); (xff, xff, xff, xff)] i
           = Some item' ->
           exists p q,
             nth_error (pixels out) i = Some p
             /\ nth_error (pixels out') i = Some q
             /\ ((0 <? alpha item)%N = (0 <? alpha item')%N ->
                 (p = (x00, x00, x00, xff) -> q = (xff, xff, xff, xff))
                 /\ (p = (xff, xff, xff, xff) -> q = (x00, x00, x00, xff)))
             /\ ((0 <? alpha item)%N <> (0 <? alpha item')%N -> q = p))
    /\ (map (fun item => (0 <? alpha item)%N)
            [(x00, x00, x00, xff); (xff, xff, xff, xff); (x00, x00, x00, xff)]
        = map (fun item => (0 <? alpha item)%N)
              [(xff, xff, xff, xff); (x00, x00, x00, xff); (xff, xff, xff, xff)] ->
        colour_inverse (x00, x00, x00, xff) (xff, xff, xff, xff) out out').
Proof.
  apply (swapped_colours (Bitmap.pillow Bitmap.current) (lit " a b")
           Bitmap.font_file_path 30 (x00, x00, x00, xff) (xff, xff, xff, xff) []
           30 (1, 2, 4, 3) [Called (textbbox_call (0, 0) (lit " a b"))]
           (mkImage (3, 1)
              [(x00, x00, x00, xff); (xff, xff, xff, xff); (x00, x00, x00, xff)])
           (mkImage (3, 1)
              [(xff, xff, xff, xff); (x00, x00, x00, xff); (xff, xff, xff, xff)])).
  - reflexivity.
  - apply measured_precise. reflexivity.
  - reflexivity.
  - reflexivity.
  - reflexivity.
  - reflexivity.
Defined.

(** C6.  The code does not meet the claim.  The buffer of line 75 is
    allocated outside every [try]: when [Image.new] refuses the size of the
    measured box (with a [MemoryError], say), its exception leaves the
    call.  The caller gets neither an image nor [None], nothing has been
    drawn and no error notice has been shown. *)
Theorem refused_allocation_leaves_the_call
    (lib : Pillow) (text font_path : str) (font_size : Z)
    (text_color bg_color : RGBA) (t : trace)
    (font : Font lib) (bbox : Z * Z * Z * Z) (evs : list event) (e : exn) :
  truetype lib font_path font_size = Return font ->
  measured lib font text bbox evs ->
  0 < box_width bbox -> 0 < box_height bbox ->
  refuses lib (box_width bbox, box_height bbox) = Some e ->
  (exists done,
      text_to_true_pixel_art lib text font_path font_size text_color bg_color t
      = (Raise e, t ++ done)
      /\ existsb is_error done = false
      /\ existsb is_drawing done = false)
  /\ ~ never_raises lib text font_path font_size text_color bg_color.
Proof.
  intros Hfont Hm Hw Hh Halloc. split.
  - rewrite (run_allocation_raises lib _ _ _ _ _ t font bbox evs e)
      by assumption.
    eexists. split; [reflexivity|].
    destruct (measured_quiet lib font text bbox evs Hm) as [Hd He].
    unfold prelude. rewrite !existsb_app, Hd, He. split; reflexivity.
  - intros Hnever. apply (Hnever [] e).
    now rewrite (run_allocation_raises lib _ _ _ _ _ [] font bbox evs e)
      by assumption.
Qed.

(** A text of 5000 letters at the size of the script, on a machine that
    cannot allocate its 5000 pixels. *)
Lemma refused_allocation_leaves_the_call_witness :
  (exists done,
      text_to_true_pixel_art Cramped.pillow Cramped.long_text
        Bitmap.font_file_path DEFAULT_FONT_SIZE DEFAULT_TEXT_COLOR DEFAULT_BG_COLOR []
      = (Raise MemoryError, [] ++ done)
      /\ existsb is_error done = false
      /\ existsb is_drawing done = false)
  /\ ~ never_raises Cramped.pillow Cramped.long_text
        Bitmap.font_file_path DEFAULT_FONT_SIZE DEFAULT_TEXT_COLOR DEFAULT_BG_COLOR.
Proof.
  apply (refused_allocation_leaves_the_call Cramped.pillow Cramped.long_text
           Bitmap.font_file_path DEFAULT_FONT_SIZE DEFAULT_TEXT_COLOR DEFAULT_BG_COLOR []
           DEFAULT_FONT_SIZE (0, 2, 5000, 3)
           [Called (textbbox_call (0, 0) Cramped.long_text)] MemoryError).
  - reflexivity.
  - apply measured_precise. vm_compute. reflexivity.
  - reflexivity.
  - reflexivity.
  - reflexivity.
Defined.

(** Which exceptions leave the call.  The function handles two faults,
    the [IOError] of font loading and the [AttributeError] of the
    measuring calls, and turns them into [None]; an exception leaves the
    call exactly when a Pillow call raises one that no handler waits for:
    font loading with anything but [IOError], measuring with anything but
    [AttributeError], the allocation of the buffer or the drawing with
    anything at all. *)
Theorem only_unhandled_faults_escape
    (lib : Pillow) (text font_path : str) (font_size : Z)
    (text_color bg_color : RGBA) (t : trace) (e : exn) :
  fst (text_to_true_pixel_art lib text font_path font_size text_color bg_color t)
  = Raise e
  <-> escapes lib text font_path font_size text_color bg_color e.
Proof.
  split.
  - destruct (run_cases lib text font_path font_size text_color bg_color)
      as [o [evs [Hrun [_ [Hesc _]]]]].
    rewrite Hrun. cbn [fst]. apply Hesc.
  - intros [[Hfont He] | [font [Hfont [[Hbb He] | [[Hbb [He Hfb]] | Hdraw]]]]].
    + now rewrite (run_font_raises lib _ _ _ _ _ t e Hfont He).
    + now rewrite (run_textbbox_raises lib _ _ _ _ _ t font e Hfont Hbb He).
    + now rewrite (run_fallback_raises lib _ _ _ _ _ t font e Hfont Hbb He Hfb).
    + destruct Hdraw as [bbox [evs [Hm [Hw [Hh [Halloc | [Halloc Hdraw]]]]]]].
      * now rewrite (run_allocation_raises lib _ _ _ _ _ t font bbox evs e
                       Hfont Hm Hw Hh Halloc).
      * now rewrite (run_draw_raises lib _ _ _ _ _ t font bbox evs e
                       Hfont Hm Hw Hh Halloc Hdraw).
Qed.

(** C7, as stated, fails: on a Pillow that has neither [textbbox] nor
    [textlength] the call reports an error and returns [None]. *)
Lemma fallback_without_textlength_gives_no_image :
  ~ fallback_always_renders (Bitmap.pillow Bitmap.ancient)
      (lit "Hello Pixel World!") Bitmap.font_file_path DEFAULT_FONT_SIZE
      DEFAULT_TEXT_COLOR DEFAULT_BG_COLOR.
Proof.
  intros H.
  destruct (H DEFAULT_FONT_SIZE eq_refl eq_refl []) as [img Himg].
  vm_compute in Himg. discriminate Himg.
Qed.

(** C7, amended.  When [textbbox] raises [AttributeError] the call shows
    the fallback warning and goes on with the box [(0, 0, int(advance),
    ascent + descent)].  If [textlength] and [getmetrics] answer, it gives
    an image: the 1x1 background pixel for a degenerate box, otherwise the
    quantized drawing of that size (when the drawing itself does not
    raise).  If [textlength] or [getmetrics] is missing as well, it reports
    an error and returns [None]. *)
Theorem metrics_fallback
    (lib : Pillow) (text font_path : str) (font_size : Z)
    (text_color bg_color : RGBA) (t : trace) (font : Font lib) :
  truetype lib font_path font_size = Return font ->
  textbbox lib font (0, 0) text = Raise AttributeError ->
  exists o evs,
    text_to_true_pixel_art lib text font_path font_size text_color bg_color t
    = (o, t ++ prelude text font_path font_size
                 ([Called (textbbox_call (0, 0) text); St_warning fallback_msg]
                  ++ evs))
    /\ (forall q ascent descent,
           textlength lib font text = Return q ->
           getmetrics lib font = Return (ascent, descent) ->
           (int q <= 0 \/ ascent + descent <= 0 ->
            o = Return (Some (mkImage (1, 1) [bg_color])))
           /\ (0 < int q -> 0 < ascent + descent ->
               forall drawn,
                 draw_text lib font (0, 0) text text_color
                           (blank (0, 0, int q, ascent + descent) bg_color)
                 = Return drawn ->
                 o = Return (Some (mkImage (int q, ascent + descent)
                                           (map (quantize_pixel text_color bg_color)
                                                (pixels drawn))))))
    /\ (textlength lib font text = Raise AttributeError
        \/ (exists q, textlength lib font text = Return q
                      /\ getmetrics lib font = Raise AttributeError) ->
        o = Return None
        /\ exists calls, evs = calls ++ [St_error no_dimensions_msg]
                         /\ Forall (fun ev => is_notice ev = false) calls).
Proof.
  intros Hfont Hbb.
  destruct (run_fallback_shape lib text font_path font_size text_color bg_color
              font Hfont Hbb) as [o [evs Hrun]].
  exists o, evs. split; [apply Hrun|]. split.
  - intros q a d Hlen Hmet.
    pose proof (measured_fallback lib font text q a d Hbb Hlen Hmet) as Hm.
    split.
    + intros Hdeg.
      assert (Hdeg' : box_width (0, 0, int q, a + d) <= 0
                      \/ box_height (0, 0, int q, a + d) <= 0).
      { unfold box_width, box_height. lia. }
      pose proof (run_degenerate lib _ _ _ text_color bg_color t font _ _
                    Hfont Hm Hdeg') as Hd.
      rewrite Hrun in Hd. now injection Hd as -> _.
    + intros Hw Hh drawn Hdraw.
      assert (Hw' : 0 < box_width (0, 0, int q, a + d))
        by (unfold box_width; lia).
      assert (Hh' : 0 < box_height (0, 0, int q, a + d))
        by (unfold box_height; lia).
      pose proof (run_render lib _ _ _ text_color bg_color t font _ _ drawn
                    Hfont Hm Hw' Hh' Hdraw) as Hr.
      rewrite Hrun in Hr. injection Hr as -> _.
      destruct (draw_text_inplace lib _ _ _ _ _ _ Hdraw) as [-> _].
      cbn [blank size]. do 3 f_equal. f_equal; lia.
  - intros Hcase.
    pose proof (run_fallback_missing lib text font_path font_size text_color
                  bg_color t font Hfont Hbb Hcase) as Hmiss.
    rewrite Hrun in Hmiss. injection Hmiss as -> Heq.
    split; [reflexivity|]. exists (fallback_calls lib font text).
    split; [|apply fallback_calls_quiet].
    apply app_inv_head in Heq. unfold prelude in Heq.
    apply app_inv_head in Heq. now injection Heq.
Qed.

Lemma metrics_fallback_witness :
  exists o evs,
    text_to_true_pixel_art (Bitmap.pillow Bitmap.no_textbbox) (lit "ab")
      Bitmap.font_file_path 30 DEFAULT_TEXT_COLOR DEFAULT_BG_COLOR []
    = (o, [] ++ prelude (lit "ab") Bitmap.font_file_path 30
                  ([Called (textbbox_call (0, 0) (lit "ab"));
                    St_warning fallback_msg] ++ evs))
    /\ (forall q ascent descent,
           Bitmap.textlength Bitmap.no_textbbox 30 (lit "ab") = Return q ->
           Bitmap.getmetrics 30 = Return (ascent, descent) ->
           (int q <= 0 \/ ascent + descent <= 0 ->
            o = Return (Some (mkImage (1, 1) [DEFAULT_BG_COLOR])))
           /\ (0 < int q -> 0 < ascent + descent ->
               forall drawn,
                 Bitmap.draw_text 30 (0, 0) (lit "ab") DEFAULT_TEXT_COLOR
                   (blank (0, 0, int q, ascent + descent) DEFAULT_BG_COLOR)
                 = Return drawn ->
                 o = Return (Some (mkImage (int q, ascent + descent)
                                           (map (quantize_pixel DEFAULT_TEXT_COLOR
                                                                DEFAULT_BG_COLOR)
                                                (pixels drawn))))))
    /\ (Bitmap.textlength Bitmap.no_textbbox 30 (lit "ab") = Raise AttributeError
        \/ (exists q, Bitmap.textlength Bitmap.no_textbbox 30 (lit "ab") = Return q
                      /\ Bitmap.getmetrics 30 = Raise AttributeError) ->
        o = Return None
        /\ exists calls, evs = calls ++ [St_error no_dimensions_msg]
                         /\ Forall (fun ev => is_notice ev = false) calls).
Proof.
  apply (metrics_fallback (Bitmap.pillow Bitmap.no_textbbox) (lit "ab")
           Bitmap.font_file_path 30 DEFAULT_TEXT_COLOR DEFAULT_BG_COLOR [] 30).
  - reflexivity.
  - reflexivity.
Defined.

(** C8. Font load failure.  When the font cannot be opened ([IOError]),
    the call reports the error and returns [None] at once: the trace of
    the call is the attempt to load the font and the error notice, with no
    measuring, allocation, drawing or quantization after it. *)
Theorem font_load_error_stops_the_call
    (lib : Pillow) (text font_path : str) (font_size : Z)
    (text_color bg_color : RGBA) (t : trace) :
  truetype lib font_path font_size = Raise IOError ->
  text_to_true_pixel_art lib text font_path font_size text_color bg_color t
  = (Return None,
     t ++ [Called (ImageFont_truetype_call font_path font_size);
           St_error (font_not_found_msg font_path)]).
Proof.
  intros Hfont. now apply run_font_missing.
Qed.

Lemma font_load_error_stops_the_call_witness :
  text_to_true_pixel_art (Bitmap.pillow Bitmap.current) (lit "Hello Pixel World!")
    (lit "/app/missing.ttf") 30 DEFAULT_TEXT_COLOR DEFAULT_BG_COLOR []
  = (Return None,
     [] ++ [Called (ImageFont_truetype_call (lit "/app/missing.ttf") 30);
            St_error (font_not_found_msg (lit "/app/missing.ttf"))]).
Proof.
  apply (font_load_error_stops_the_call (Bitmap.pillow Bitmap.current)
           (lit "Hello Pixel World!") (lit "/app/missing.ttf") 30
           DEFAULT_TEXT_COLOR DEFAULT_BG_COLOR []).
  reflexivity.
Defined.

(** C9. The download name.  The name derived in the script is the one the
    rule describes (every character that is not alphanumeric replaced by an
    underscore, the first 20 characters of the source kept, the trailing
    underscores removed, ["pixel_text"] when nothing is left); for
    ["Hello, World!! 2024"] it is ["Hello__World___2024"].  In general the
    name is never empty, has at most 20 characters, all of them
    alphanumeric or underscores, and is either the default name or the
    sanitized prefix without the run of underscores at its end. *)
Theorem safe_filename_rule (unicode_isalnum : N -> bool) :
  safe_filename unicode_isalnum (lit "Hello, World!! 2024")
  = lit "Hello__World___2024"
  /\ forall text_input : str,
      safe_filename unicode_isalnum text_input
      = safe_filename_spec unicode_isalnum text_input
      /\ safe_filename unicode_isalnum text_input <> []
      /\ (length (safe_filename unicode_isalnum text_input) <= 20)%nat
      /\ Forall (fun c => isalnum unicode_isalnum c = true \/ c = underscore)
                (safe_filename unicode_isalnum text_input)
      /\ exists k,
          map (keep_or_underscore unicode_isalnum) (firstn 20 text_input)
          = rstrip_underscore
              (map (keep_or_underscore unicode_isalnum) (firstn 20 text_input))
            ++ repeat underscore k
          /\ last (rstrip_underscore
                     (map (keep_or_underscore unicode_isalnum) (firstn 20 text_input)))
                  0%N <> underscore
          /\ safe_filename unicode_isalnum text_input
             = match rstrip_underscore
                       (map (keep_or_underscore unicode_isalnum) (firstn 20 text_input))
               with
               | [] => lit "pixel_text"
               | c :: rest => c :: rest
               end.
Proof.
  split; [reflexivity|]. intros text_input.
  unfold safe_filename, safe_filename_spec.
  rewrite <- firstn_map.
  assert (Hchars : Forall (fun c => isalnum unicode_isalnum c = true \/ c = underscore)
                          (rstrip_underscore
                             (map (keep_or_underscore unicode_isalnum)
                                  (firstn 20 text_input)))).
  { apply Forall_forall. intros c Hc. apply rstrip_underscore_incl in Hc.
    apply in_map_iff in Hc as [x [<- _]]. unfold keep_or_underscore.
    destruct (isalnum unicode_isalnum x) eqn:Hx; auto. }
  rewrite <- firstn_map in Hchars.
  set (s := firstn 20 (map (keep_or_underscore unicode_isalnum) text_input)) in *.
  assert (Hs : (length s <= 20)%nat) by apply firstn_le_length.
  pose proof (rstrip_underscore_length s) as Hlen.
  pose proof (rstrip_underscore_last s) as Hlast.
  destruct (rstrip_underscore_split s) as [k Hk].
  destruct (rstrip_underscore s) as [|c rest] eqn:E.
  - split; [reflexivity|]. split; [discriminate|]. split; [cbv; lia|].
    split.
    { repeat (apply Forall_cons; [first [left; reflexivity | right; reflexivity]|]).
      apply Forall_nil. }
    exists k. split; [exact Hk|]. split; [exact Hlast|reflexivity].
  - split; [reflexivity|]. split; [discriminate|]. split; [lia|].
    split; [exact Hchars|].
    exists k. split; [exact Hk|]. split; [exact Hlast|reflexivity].
Qed.

(** C10, as stated, fails: with a transparent text colour on an opaque
    background the drawing blends the alpha of the inked pixels down to 0,
    so that these become [bg_color] and both colours appear. *)
Lemma transparent_text_on_opaque_background :
  ~ opaque_background_floods (Bitmap.pillow Bitmap.current) (lit " a b")
      Bitmap.font_file_path DEFAULT_FONT_SIZE (x00, x00, x00, x00) (x00, x00, x00, xff).
Proof.
  intros H.
  specialize (H eq_refl DEFAULT_FONT_SIZE (1, 2, 4, 3)
                [Called (textbbox_call (0, 0) (lit " a b"))] []
                (mkImage (3, 1)
                   [(x00, x00, x00, xff); (x00, x00, x00, x00); (x00, x00, x00, xff)])
                eq_refl
                (measured_precise (Bitmap.pillow Bitmap.current) DEFAULT_FONT_SIZE
                   (lit " a b") (1, 2, 4, 3) eq_refl)
                eq_refl eq_refl eq_refl).
  cbn [pixels] in H. inversion H as [|p rest Hp _]. discriminate Hp.
Qed.

(** C10, amended.  If [bg_color] has a positive alpha, [text_color] has a
    positive alpha too, and drawing with such a fill leaves no pixel of
    positive alpha with alpha 0, then every pixel of a non-degenerate
    rendering is [text_color]: [bg_color] does not appear (unless it is
    [text_color]) and the image carries no glyph shape. *)
Theorem opaque_colours_flood_the_buffer
    (lib : Pillow) (text font_path : str) (font_size : Z)
    (text_color bg_color : RGBA) (t : trace)
    (font : Font lib) (bbox : Z * Z * Z * Z) (evs : list event) (drawn : Image) :
  keeps_alpha lib ->
  (0 < alpha bg_color)%N ->
  (0 < alpha text_color)%N ->
  truetype lib font_path font_size = Return font ->
  measured lib font text bbox evs ->
  0 < box_width bbox -> 0 < box_height bbox ->
  draw_text lib font (draw_origin bbox) text text_color (blank bbox bg_color)
  = Return drawn ->
  exists out,
    fst (text_to_true_pixel_art lib text font_path font_size text_color bg_color t)
    = Return (Some out)
    /\ size out = (box_width bbox, box_height bbox)
    /\ Forall (fun p => p = text_color) (pixels out)
    /\ (bg_color <> text_color -> ~ In bg_color (pixels out)).
Proof.
  intros Hkeep Hbg Htext Hfont Hm Hw Hh Hdraw.
  assert (Hblank : Forall (fun p => (0 < alpha p)%N) (pixels (blank bbox bg_color))).
  { destruct bbox as [[[l tp] r] b]. cbn [blank pixels].
    apply Forall_forall. intros p Hp. apply repeat_spec in Hp. now subst p. }
  pose proof (Hkeep _ _ _ _ _ _ Hdraw Htext Hblank) as Hdrawn.
  destruct (draw_text_inplace lib _ _ _ _ _ _ Hdraw) as [Hsize _].
  assert (Hall : Forall (fun p => p = text_color)
                        (map (quantize_pixel text_color bg_color) (pixels drawn))).
  { apply Forall_forall. intros p Hp. apply in_map_iff in Hp as [item [<- Hin]].
    rewrite Forall_forall in Hdrawn. specialize (Hdrawn item Hin).
    unfold quantize_pixel. apply N.ltb_lt in Hdrawn. now rewrite Hdrawn. }
  eexists. rewrite (run_render lib _ _ _ _ _ t font bbox evs drawn) by assumption.
  cbn [fst]. split; [reflexivity|]. cbn [size pixels].
  split; [|split; [exact Hall|]].
  - rewrite Hsize. destruct bbox as [[[l tp] r] b]. reflexivity.
  - intros Hneq Hin. rewrite Forall_forall in Hall. apply Hneq. now apply Hall.
Qed.

Lemma opaque_colours_flood_the_buffer_witness :
  exists out,
    fst (text_to_true_pixel_art (Bitmap.pillow Bitmap.current) (lit " a b")
           Bitmap.font_file_path 30 (x00, x00, x00, xff) (xff, xff, xff, xff) [])
    = Return (Some out)
    /\ size out = (box_width (1, 2, 4, 3), box_height (1, 2, 4, 3))
    /\ Forall (fun p => p = (x00, x00, x00, xff)) (pixels out)
    /\ ((xff, xff, xff, xff) <> (x00, x00, x00, xff) ->
        ~ In (xff, xff, xff, xff) (pixels out)).
Proof.
  apply (opaque_colours_flood_the_buffer (Bitmap.pillow Bitmap.current) (lit " a b")
           Bitmap.font_file_path 30 (x00, x00, x00, xff) (xff, xff, xff, xff) []
           30 (1, 2, 4, 3) [Called (textbbox_call (0, 0) (lit " a b"))]
           (mkImage (3, 1)
              [(x00, x00, x00, xff); (xff, xff, xff, xff); (x00, x00, x00, xff)])).
  - apply Bitmap_keeps_alpha.
  - reflexivity.
  - reflexivity.
  - reflexivity.
  - apply measured_precise. reflexivity.
  - reflexivity.
  - reflexivity.
  - reflexivity.
Defined.

(** * Further properties of the renderer *)

Lemma measured_functional (lib : Pillow) (font : Font lib) (text : str)
    bbox evs bbox' evs' :
  measured lib font text bbox evs ->
  measured lib font text bbox' evs' ->
  bbox = bbox' /\ evs = evs'.
Proof.
  intros [b Hb | q a d Hb Hq Hm] [b' Hb' | q' a' d' Hb' Hq' Hm'].
  - rewrite Hb in Hb'. injection Hb' as <-. auto.
  - rewrite Hb in Hb'. discriminate Hb'.
  - rewrite Hb in Hb'. discriminate Hb'.
  - rewrite Hq in Hq'. injection Hq' as <-.
    rewrite Hm in Hm'. injection Hm' as <- <-. auto.
Qed.

Lemma fallback_calls_no_error (lib : Pillow) (font : Font lib) (text : str) :
  existsb is_error (fallback_calls lib font text) = false.
Proof.
  unfold fallback_calls. destruct (textlength lib font text); reflexivity.
Qed.

(** X1.  An image that the call returns is never empty: it is at least
    one pixel wide and one pixel high, and it holds exactly width times
    height pixels. *)
Theorem returned_image_is_well_formed
    (lib : Pillow) (text font_path : str) (font_size : Z)
    (text_color bg_color : RGBA) (t : trace) (out : Image) :
  fst (text_to_true_pixel_art lib text font_path font_size text_color bg_color t)
  = Return (Some out) ->
  1 <= width out
  /\ 1 <= height out
  /\ length (pixels out) = Z.to_nat (width out * height out).
Proof.
  destruct (text_to_true_pixel_art lib text font_path font_size
              text_color bg_color t) as [o t'] eqn:Hrun.
  cbn [fst]. intros ->.
  destruct (run_path_inv lib _ _ _ _ _ t _ t' Hrun) as [evs [_ Hp]].
  inversion Hp as [ | | | | | font bbox evs0 Hfont Hm Hdeg
                    | font bbox evs0 drawn Hfont Hm Hw Hh Hdraw | | ]; subst.
  - unfold width, height. cbn. repeat split; lia.
  - destruct (draw_text_inplace lib _ _ _ _ _ _ Hdraw) as [Hsize Hlen].
    destruct bbox as [[[l tp] r] b].
    cbn [blank size pixels] in Hsize, Hlen. rewrite repeat_length in Hlen.
    unfold box_width, box_height in Hw, Hh.
    unfold width, height. cbn [size pixels]. rewrite Hsize. cbn [fst snd].
    rewrite length_map. repeat split; lia.
Qed.

Lemma returned_image_is_well_formed_witness :
  1 <= width (mkImage (3, 1)
                [(x00, x00, x00, xff); (x00, x00, x00, x00); (x00, x00, x00, xff)])
  /\ 1 <= height (mkImage (3, 1)
                [(x00, x00, x00, xff); (x00, x00, x00, x00); (x00, x00, x00, xff)])
  /\ length (pixels (mkImage (3, 1)
                [(x00, x00, x00, xff); (x00, x00, x00, x00); (x00, x00, x00, xff)]))
     = Z.to_nat (width (mkImage (3, 1)
                [(x00, x00, x00, xff); (x00, x00, x00, x00); (x00, x00, x00, xff)])
                 * height (mkImage (3, 1)
                [(x00, x00, x00, xff); (x00, x00, x00, x00); (x00, x00, x00, xff)])).
Proof.
  apply (returned_image_is_well_formed (Bitmap.pillow Bitmap.current) (lit " a b")
           Bitmap.font_file_path 30 DEFAULT_TEXT_COLOR DEFAULT_BG_COLOR []).
  reflexivity.
Defined.

(** X2.  The call returns [None] in exactly two situations: the font
    cannot be opened ([IOError]), or [textbbox] is missing and so is
    [textlength] or [getmetrics] ([AttributeError] each time). *)
Theorem none_exactly_for_the_handled_faults
    (lib : Pillow) (text font_path : str) (font_size : Z)
    (text_color bg_color : RGBA) (t : trace) :
  fst (text_to_true_pixel_art lib text font_path font_size text_color bg_color t)
  = Return None
  <-> (truetype lib font_path font_size = Raise IOError
       \/ exists font,
           truetype lib font_path font_size = Return font
           /\ textbbox lib font (0, 0) text = Raise AttributeError
           /\ (textlength lib font text = Raise AttributeError
               \/ exists q, textlength lib font text = Return q
                            /\ getmetrics lib font = Raise AttributeError)).
Proof.
  split.
  - destruct (text_to_true_pixel_art lib text font_path font_size
                text_color bg_color t) as [o t'] eqn:Hrun.
    cbn [fst]. intros ->.
    destruct (run_path_inv lib _ _ _ _ _ t _ t' Hrun) as [evs [_ Hp]].
    inversion Hp as [ Hfont | | | font Hfont Hbb Hcase | | | | | ]; subst.
    + now left.
    + right. exists font. auto.
  - intros [Hfont | [font [Hfont [Hbb Hcase]]]].
    + now rewrite (run_font_missing lib _ _ _ _ _ t Hfont).
    + now rewrite (run_fallback_missing lib _ _ _ _ _ t font Hfont Hbb Hcase).
Qed.

(** X3.  A run shows an error notice exactly when it returns [None]: a
    caller that gets [None] can rely on the user having been told, and an
    image or an exception never comes with [st.error]. *)
Theorem error_notice_exactly_with_none
    (lib : Pillow) (text font_path : str) (font_size : Z)
    (text_color bg_color : RGBA) :
  existsb is_error
          (snd (text_to_true_pixel_art lib text font_path font_size
                  text_color bg_color []))
  = true
  <-> fst (text_to_true_pixel_art lib text font_path font_size
             text_color bg_color [])
      = Return None.
Proof.
  destruct (text_to_true_pixel_art lib text font_path font_size
              text_color bg_color []) as [o t'] eqn:Hrun.
  destruct (run_path_inv lib _ _ _ _ _ [] _ t' Hrun) as [evs [-> Hp]].
  cbn [fst snd app].
  destruct Hp as [ Hfont | e Hfont He | font e Hfont Hbb He
                 | font Hfont Hbb Hcase | font e Hfont Hbb He Hcase
                 | font bbox evs Hfont Hm Hdeg
                 | font bbox evs drawn Hfont Hm Hw Hh Hdraw
                 | font bbox evs e Hfont Hm Hw Hh Halloc
                 | font bbox evs e Hfont Hm Hw Hh Halloc Hdraw ];
    try (pose proof (measured_quiet lib font text bbox evs Hm) as [_ Hq]);
    unfold prelude, render_events;
    rewrite ?existsb_app, ?fallback_calls_no_error, ?Hq; cbn;
    rewrite ?orb_true_r;
    split; intros H; try reflexivity; try discriminate H.
Qed.

(** X4.  The size of the returned image does not depend on the colours:
    two calls that differ in their colours only, and both return an image,
    return images of the same size. *)
Theorem image_size_ignores_colours
    (lib : Pillow) (text font_path : str) (font_size : Z)
    (text_color bg_color text_color' bg_color' : RGBA) (t t' : trace)
    (out out' : Image) :
  fst (text_to_true_pixel_art lib text font_path font_size text_color bg_color t)
  = Return (Some out) ->
  fst (text_to_true_pixel_art lib text font_path font_size text_color' bg_color' t')
  = Return (Some out') ->
  size out = size out'.
Proof.
  destruct (text_to_true_pixel_art lib text font_path font_size
              text_color bg_color t) as [o u] eqn:Hrun.
  destruct (text_to_true_pixel_art lib text font_path font_size
              text_color' bg_color' t') as [o' u'] eqn:Hrun'.
  cbn [fst]. intros -> ->.
  destruct (run_path_inv lib _ _ _ _ _ t _ u Hrun) as [evs [_ Hp]].
  destruct (run_path_inv lib _ _ _ _ _ t' _ u' Hrun') as [evs' [_ Hp']].
  inversion Hp as [ | | | | | font bbox evs0 Hfont Hm Hdeg
                    | font bbox evs0 drawn Hfont Hm Hw Hh Hdraw | | ]; subst;
  inversion Hp' as [ | | | | | font' bbox' evs0' Hfont' Hm' Hdeg'
                     | font' bbox' evs0' drawn' Hfont' Hm' Hw' Hh' Hdraw' | | ]; subst;
  rewrite Hfont in Hfont'; injection Hfont' as <-;
  destruct (measured_functional lib font text _ _ _ _ Hm Hm') as [<- _].
  - reflexivity.
  - exfalso. lia.
  - exfalso. lia.
  - destruct (draw_text_inplace lib _ _ _ _ _ _ Hdraw) as [Hsize _].
    destruct (draw_text_inplace lib _ _ _ _ _ _ Hdraw') as [Hsize' _].
    cbn [size]. rewrite Hsize, Hsize'. destruct bbox as [[[l tp] r] b]. reflexivity.
Qed.

Lemma image_size_ignores_colours_witness :
  size (mkImage (3, 1)
          [(x00, x00, x00, xff); (x00, x00, x00, x00); (x00, x00, x00, xff)])
  = size (mkImage (3, 1)
            [(xff, x00, x00, xff); (xff, x00, x00, xff); (xff, x00, x00, xff)]).
Proof.
  apply (image_size_ignores_colours (Bitmap.pillow Bitmap.current) (lit " a b")
           Bitmap.font_file_path 30
           DEFAULT_TEXT_COLOR DEFAULT_BG_COLOR
           (xff, x00, x00, xff) (x00, xff, x00, x80) [] []).
  - reflexivity.
  - reflexivity.
Defined.

(** X5.  With a text colour of positive alpha and a background colour of
    alpha 0, the returned image is pure: running the pass of lines 80 to
    87 on it again changes nothing, and a pixel has positive alpha exactly
    when it is [text_color], so the ink pattern can be read back from the
    alpha channel. *)
Theorem returned_image_is_pure
    (lib : Pillow) (text font_path : str) (font_size : Z)
    (text_color bg_color : RGBA) (t : trace) (out : Image) :
  (0 < alpha text_color)%N ->
  alpha bg_color = 0%N ->
  fst (text_to_true_pixel_art lib text font_path font_size text_color bg_color t)
  = Return (Some out) ->
  putdata out (quantize text_color bg_color (getdata out)) = out
  /\ Forall (fun p => (0 < alpha p)%N <-> p = text_color) (pixels out).
Proof.
  intros Htext Hbg.
  assert (Hneq : bg_color <> text_color).
  { intros Heq. rewrite Heq in Hbg. lia. }
  assert (Hfix : forall p, p = text_color \/ p = bg_color ->
                 quantize_pixel text_color bg_color p = p
                 /\ ((0 < alpha p)%N <-> p = text_color)).
  { intros p [-> | ->]; unfold quantize_pixel.
    - apply N.ltb_lt in Htext as Htext'. rewrite Htext'. tauto.
    - rewrite Hbg. cbn. split; [reflexivity|]. split; [lia|].
      intros Heq. now apply Hneq in Heq. }
  destruct (text_to_true_pixel_art lib text font_path font_size
              text_color bg_color t) as [o t'] eqn:Hrun.
  cbn [fst]. intros ->.
  destruct (run_path_inv lib _ _ _ _ _ t _ t' Hrun) as [evs [_ Hp]].
  assert (Htwo : Forall (fun p => p = text_color \/ p = bg_color) (pixels out)).
  { inversion Hp; subst; cbn [pixels].
    - apply Forall_cons; [now right | apply Forall_nil].
    - apply quantized_two_valued. }
  rewrite putdata_quantize. split.
  - assert (Hmap : map (quantize_pixel text_color bg_color) (pixels out)
                   = pixels out).
    { rewrite <- (map_id (pixels out)) at 2. apply map_ext_in.
      intros p Hin. rewrite Forall_forall in Htwo.
      apply (Hfix p (Htwo p Hin)). }
    rewrite Hmap. now destruct out.
  - eapply Forall_impl; [|exact Htwo]. intros p Hp'. apply (Hfix p Hp').
Qed.

Lemma returned_image_is_pure_witness :
  putdata (mkImage (3, 1)
             [(x00, x00, x00, xff); (x00, x00, x00, x00); (x00, x00, x00, xff)])
          (quantize DEFAULT_TEXT_COLOR DEFAULT_BG_COLOR
             (getdata (mkImage (3, 1)
                [(x00, x00, x00, xff); (x00, x00, x00, x00); (x00, x00, x00, xff)])))
  = mkImage (3, 1)
      [(x00, x00, x00, xff); (x00, x00, x00, x00); (x00, x00, x00, xff)]
  /\ Forall (fun p => (0 < alpha p)%N <-> p = DEFAULT_TEXT_COLOR)
            (pixels (mkImage (3, 1)
               [(x00, x00, x00, xff); (x00, x00, x00, x00); (x00, x00, x00, xff)])).
Proof.
  apply (returned_image_is_pure (Bitmap.pillow Bitmap.current) (lit " a b")
           Bitmap.font_file_path 30 DEFAULT_TEXT_COLOR DEFAULT_BG_COLOR []).
  - reflexivity.
  - reflexivity.
  - reflexivity.
Defined.

(** An allocation that Pillow accepts and that holds at least one pixel. *)
Definition allocates_something (ev : event) : Prop :=
  match ev with
  | Called (Image_new_call (w, h) _) => 1 <= w /\ 1 <= h
  | _ => True
  end.

(** X6.  Whatever the text and whatever Pillow measures, every buffer the
    call asks [Image.new] for is at least 1x1: the function never requests
    an empty or a negative size. *)
Theorem allocations_are_at_least_one_pixel
    (lib : Pillow) (text font_path : str) (font_size : Z)
    (text_color bg_color : RGBA) :
  Forall allocates_something
         (snd (text_to_true_pixel_art lib text font_path font_size
                 text_color bg_color [])).
Proof.
  destruct (text_to_true_pixel_art lib text font_path font_size
              text_color bg_color []) as [o t'] eqn:Hrun.
  destruct (run_path_inv lib _ _ _ _ _ [] _ t' Hrun) as [evs [-> Hp]].
  cbn [snd app].
  assert (Hmeasured : forall font bbox evs0,
             measured lib font text bbox evs0 -> Forall allocates_something evs0).
  { intros font bbox evs0 [? ?|? ? ? ? ? ?]; repeat (apply Forall_cons; [exact I|]);
      apply Forall_nil. }
  assert (Hfallback : forall font,
             Forall allocates_something (fallback_calls lib font text)).
  { intros font. unfold fallback_calls.
    destruct (textlength lib font text);
      repeat (apply Forall_cons; [exact I|]); apply Forall_nil. }
  assert (Hone : allocates_something
                   (Called (Image_new_call (1, 1) (x00, x00, x00, x00))))
    by (cbn; lia).
  destruct Hp as [ Hfont | e Hfont He | font e Hfont Hbb He
                 | font Hfont Hbb Hcase | font e Hfont Hbb He Hcase
                 | font bbox evs Hfont Hm Hdeg
                 | font bbox evs drawn Hfont Hm Hw Hh Hdraw
                 | font bbox evs e Hfont Hm Hw Hh Halloc
                 | font bbox evs e Hfont Hm Hw Hh Halloc Hdraw ];
    unfold prelude, render_events;
    repeat first
      [ apply Forall_nil
      | apply Forall_app; split
      | apply (Hmeasured font bbox evs Hm)
      | apply Hfallback
      | apply Forall_cons; [first [exact I | exact Hone | cbn; lia]|] ].
Qed.

(** * Further properties of the download name *)

Lemma rstrip_underscore_fixed (s : str) :
  last s 0%N <> underscore -> rstrip_underscore s = s.
Proof.
  induction s as [|c s IH]; [reflexivity|].
  intros Hlast. cbn [rstrip_underscore fold_right]. fold (rstrip_underscore s).
  destruct s as [|d s'].
  - cbn in *. destruct (N.eqb_spec c underscore) as [Hc|Hc]; [contradiction|reflexivity].
  - rewrite IH by exact Hlast. reflexivity.
Qed.

Lemma rstrip_underscore_nil (s : str) :
  rstrip_underscore s = [] <-> Forall (fun c => c = underscore) s.
Proof.
  induction s as [|c s IH]; [split; [constructor|reflexivity]|].
  cbn [rstrip_underscore fold_right]. fold (rstrip_underscore s). split.
  - destruct (rstrip_underscore s) as [|d kept]; [|discriminate].
    destruct (N.eqb_spec c underscore) as [Hc|Hc]; [|discriminate].
    intros _. constructor; [exact Hc|]. now apply IH.
  - intros H. inversion H as [|c' s' Hc Hs]; subst.
    rewrite (proj2 IH Hs). now rewrite N.eqb_refl.
Qed.

Section FilenameFacts.

Variable unicode_isalnum : N -> bool.

Local Abbreviation keep := (keep_or_underscore unicode_isalnum).
Local Abbreviation name := (safe_filename unicode_isalnum).

Lemma underscore_not_alnum : isalnum unicode_isalnum underscore = false.
Proof. reflexivity. Qed.

Lemma keep_fixed (c : N) :
  isalnum unicode_isalnum c = true \/ c = underscore -> keep c = c.
Proof.
  unfold keep_or_underscore. intros [H | ->].
  - now rewrite H.
  - now rewrite underscore_not_alnum.
Qed.

Lemma map_keep_fixed (s : str) :
  Forall (fun c => isalnum unicode_isalnum c = true \/ c = underscore) s ->
  map keep s = s.
Proof.
  intros H. rewrite <- (map_id s) at 2. apply map_ext_in.
  intros c Hc. rewrite Forall_forall in H. now apply keep_fixed, H.
Qed.

(** The two shapes of a derived name. *)
Lemma safe_filename_cases (text_input : str) :
  (rstrip_underscore (map keep (firstn 20 text_input)) = []
   /\ name text_input = lit "pixel_text")
  \/ (rstrip_underscore (map keep (firstn 20 text_input)) <> []
      /\ name text_input = rstrip_underscore (map keep (firstn 20 text_input))).
Proof.
  unfold safe_filename.
  destruct (rstrip_underscore (map keep (firstn 20 text_input))) as [|c rest].
  - left. auto.
  - right. split; [discriminate|reflexivity].
Qed.

Lemma safe_filename_chars (text_input : str) :
  Forall (fun c => isalnum unicode_isalnum c = true \/ c = underscore)
         (name text_input).
Proof.
  destruct (safe_filename_cases text_input) as [[_ ->] | [_ ->]].
  - repeat (apply Forall_cons; [first [left; reflexivity | right; reflexivity]|]).
    apply Forall_nil.
  - apply Forall_forall. intros c Hc. apply rstrip_underscore_incl in Hc.
    apply in_map_iff in Hc as [x [<- _]]. unfold keep_or_underscore.
    destruct (isalnum unicode_isalnum x) eqn:Hx; auto.
Qed.

Lemma safe_filename_last (text_input : str) :
  last (name text_input) 0%N <> underscore.
Proof.
  destruct (safe_filename_cases text_input) as [[_ ->] | [_ ->]].
  - discriminate.
  - apply rstrip_underscore_last.
Qed.

Lemma safe_filename_length (text_input : str) :
  (1 <= length (name text_input) <= 20)%nat.
Proof.
  destruct (safe_filename_cases text_input) as [[_ ->] | [Hne ->]].
  - cbv. lia.
  - pose proof (rstrip_underscore_length (map keep (firstn 20 text_input))) as H.
    rewrite length_map in H.
    pose proof (firstn_le_length 20 text_input) as H'.
    destruct (rstrip_underscore (map keep (firstn 20 text_input)));
      [contradiction|cbn [length] in *; lia].
Qed.

End FilenameFacts.

(** X7.  Deriving the name is idempotent: a derived name, taken as the
    input text, gives itself. *)
Theorem safe_filename_idempotent (unicode_isalnum : N -> bool) (text_input : str) :
  safe_filename unicode_isalnum (safe_filename unicode_isalnum text_input)
  = safe_filename unicode_isalnum text_input.
Proof.
  set (n := safe_filename unicode_isalnum text_input).
  pose proof (safe_filename_chars unicode_isalnum text_input) as Hchars.
  pose proof (safe_filename_last unicode_isalnum text_input) as Hlast.
  pose proof (safe_filename_length unicode_isalnum text_input) as Hlen.
  fold n in Hchars, Hlast, Hlen.
  unfold safe_filename at 1.
  rewrite firstn_all2 by lia.
  rewrite map_keep_fixed by exact Hchars.
  rewrite rstrip_underscore_fixed by exact Hlast.
  destruct n; [cbn in Hlen; lia | reflexivity].
Qed.

(** X8.  A text of 1 to 20 characters, all alphanumeric, is its own
    download name. *)
Theorem alphanumeric_text_is_its_own_name
    (unicode_isalnum : N -> bool) (text_input : str) :
  (1 <= length text_input <= 20)%nat ->
  forallb (isalnum unicode_isalnum) text_input = true ->
  safe_filename unicode_isalnum text_input = text_input.
Proof.
  intros Hlen Halnum. rewrite forallb_forall in Halnum.
  unfold safe_filename. rewrite firstn_all2 by lia.
  rewrite map_keep_fixed.
  2:{ apply Forall_forall. intros c Hc. left. now apply Halnum. }
  rewrite rstrip_underscore_fixed.
  - destruct text_input; [cbn in Hlen; lia | reflexivity].
  - intros Hlast.
    assert (Hin : In (last text_input 0%N) text_input).
    { destruct text_input as [|c rest]; [cbn in Hlen; lia|].
      destruct (exists_last (l := c :: rest)) as [l' [a Heq]]; [discriminate|].
      rewrite Heq, last_last. apply in_or_app. right. now left. }
    apply Halnum in Hin. rewrite Hlast in Hin.
    now rewrite underscore_not_alnum in Hin.
Qed.

Lemma alphanumeric_text_is_its_own_name_witness :
  safe_filename (fun _ => false) (lit "Pixel2024") = lit "Pixel2024".
Proof.
  apply (alphanumeric_text_is_its_own_name (fun _ => false) (lit "Pixel2024")).
  - cbv. lia.
  - reflexivity.
Defined.

(** X9.  The default name is used exactly when none of the first 20
    characters is alphanumeric (the empty text included); otherwise the
    name is the sanitized prefix cut after its last alphanumeric
    character. *)
Theorem fallback_exactly_without_alphanumerics
    (unicode_isalnum : N -> bool) (text_input : str) :
  safe_filename unicode_isalnum text_input
  = if existsb (isalnum unicode_isalnum) (firstn 20 text_input)
    then rstrip_underscore
           (map (keep_or_underscore unicode_isalnum) (firstn 20 text_input))
    else lit "pixel_text".
Proof.
  set (s := firstn 20 text_input).
  assert (Hiff : rstrip_underscore (map (keep_or_underscore unicode_isalnum) s) = []
                 <-> existsb (isalnum unicode_isalnum) s = false).
  { rewrite rstrip_underscore_nil, Forall_map.
    split.
    - intros H. apply not_true_is_false. intros Hex.
      apply existsb_exists in Hex as [c [Hin Hc]].
      rewrite Forall_forall in H. specialize (H c Hin).
      unfold keep_or_underscore in H. rewrite Hc in H. subst c.
      now rewrite underscore_not_alnum in Hc.
    - intros Hex. apply Forall_forall. intros c Hin.
      unfold keep_or_underscore.
      destruct (isalnum unicode_isalnum c) eqn:Hc; [|reflexivity].
      exfalso. apply not_true_iff_false in Hex. apply Hex.
      apply existsb_exists. now exists c. }
  destruct (safe_filename_cases unicode_isalnum text_input) as [[Hnil ->] | [Hne ->]];
    fold s in Hnil || fold s in Hne.
  - now rewrite (proj1 Hiff Hnil).
  - destruct (existsb (isalnum unicode_isalnum) s) eqn:Hex; [reflexivity|].
    exfalso. apply Hne. now apply Hiff.
Qed.

(** X10.  A derived name always ends with an alphanumeric character: it
    never ends with an underscore, whatever the text. *)
Theorem safe_filename_ends_alphanumeric
    (unicode_isalnum : N -> bool) (text_input : str) :
  isalnum unicode_isalnum (last (safe_filename unicode_isalnum text_input) 0%N)
  = true.
Proof.
  pose proof (safe_filename_chars unicode_isalnum text_input) as Hchars.
  pose proof (safe_filename_last unicode_isalnum text_input) as Hlast.
  pose proof (safe_filename_length unicode_isalnum text_input) as Hlen.
  destruct (safe_filename unicode_isalnum text_input) as [|c rest];
    [cbn in Hlen; lia|].
  destruct (exists_last (l := c :: rest)) as [l' [a Heq]]; [discriminate|].
  rewrite Heq in *. rewrite last_last in *.
  rewrite Forall_forall in Hchars.
  destruct (Hchars a) as [Ha | Ha]; [apply in_or_app; right; now left | exact Ha |].
  contradiction.
Qed.

(** X11.  The file name offered for download is the derived name followed
    by [".png"], and its ASCII characters are letters, digits, underscores
    and the dot of the extension only: no slash, backslash, colon, space
    or quote can reach the browser's save dialog through it. *)
Theorem file_name_is_harmless (unicode_isalnum : N -> bool) (text_input : str) :
  file_name unicode_isalnum text_input
  = safe_filename unicode_isalnum text_input ++ lit ".png"
  /\ (5 <= length (file_name unicode_isalnum text_input) <= 24)%nat
  /\ Forall (fun c => (c < 128)%N ->
                      ascii_isalnum c = true \/ c = underscore \/ c = 46%N)
            (file_name unicode_isalnum text_input).
Proof.
  split; [reflexivity|]. unfold file_name. split.
  - pose proof (safe_filename_length unicode_isalnum text_input) as Hlen.
    rewrite length_app. change (length (lit ".png")) with 4%nat. lia.
  - apply Forall_app. split.
    + eapply Forall_impl; [|apply safe_filename_chars].
      intros c [Hc | Hc] Hascii; [|now right; left].
      left. unfold isalnum in Hc. apply N.ltb_lt in Hascii. now rewrite Hascii in Hc.
    + repeat (apply Forall_cons;
              [intros _; first [left; reflexivity | right; right; reflexivity]|]).
      apply Forall_nil.
Qed.

(** * Further properties of the script *)

(** ** Where the font is looked for *)

Lemma basename_from (name acc : str) :
  ~ In 47%N name ->
  fold_left (fun acc c => if N.eqb c 47 then [] else acc ++ [c]) name acc
  = acc ++ name.
Proof.
  revert acc. induction name as [|c name IH]; intros acc Hno.
  - now rewrite app_nil_r.
  - cbn [fold_left]. destruct (N.eqb_spec c 47) as [->|Hc].
    + exfalso. apply Hno. now left.
    + rewrite IH by (intros H; apply Hno; now right).
      now rewrite <- app_assoc.
Qed.

Lemma basename_after_slash (a name : str) :
  ~ In 47%N name -> basename (a ++ 47%N :: name) = name.
Proof.
  intros Hno. unfold basename. rewrite fold_left_app. cbn [fold_left].
  rewrite N.eqb_refl. now rewrite basename_from.
Qed.

Lemma basename_plain (name : str) : ~ In 47%N name -> basename name = name.
Proof. intros Hno. unfold basename. now rewrite basename_from. Qed.

Lemma endswith_sep_split (a : str) :
  endswith_sep a = true -> exists a', a = a' ++ [47%N].
Proof.
  destruct a as [|c rest]; [discriminate|]. unfold endswith_sep.
  destruct (exists_last (l := c :: rest)) as [a' [x Heq]]; [discriminate|].
  rewrite Heq, last_last. intros Hx. apply N.eqb_eq in Hx. subst x. now exists a'.
Qed.

Lemma startswith_sep_in (b : str) : startswith_sep b = true -> In 47%N b.
Proof.
  destruct b as [|c rest]; [discriminate|]. cbn. intros H.
  apply N.eqb_eq in H. now left.
Qed.

Lemma basename_joined (dir name : str) :
  ~ In 47%N name ->
  basename (os_path_join dir name) = name.
Proof.
  intros Hno. unfold os_path_join.
  destruct (startswith_sep name) eqn:Hstart.
  { exfalso. now apply Hno, startswith_sep_in. }
  destruct (length dir =? 0)%nat eqn:Hlen.
  { apply Nat.eqb_eq in Hlen. apply length_zero_iff_nil in Hlen. subst dir.
    cbn. now apply basename_plain. }
  cbn [orb]. destruct (endswith_sep dir) eqn:Hend.
  - destruct (endswith_sep_split dir Hend) as [a' ->].
    rewrite <- app_assoc. cbn [app]. now apply basename_after_slash.
  - now apply basename_after_slash.
Qed.

(** X12.  For a file name without a slash, the base name of the joined
    path is that file name, whatever the directory: the error notice of
    the renderer, which prints [os.path.basename(font_path)], names the
    font file the script asked for. *)
Theorem basename_of_joined_path (dir name : str) :
  ~ In 47%N name ->
  basename (os_path_join dir name) = name
  /\ font_not_found_msg (os_path_join dir name)
     = lit "Error: Font file not found at '" ++ os_path_join dir name
       ++ lit "'. Make sure '" ++ name
       ++ lit "' is in the same directory as the script.".
Proof.
  intros Hno. pose proof (basename_joined dir name Hno) as Hbase.
  split; [exact Hbase|]. unfold font_not_found_msg. now rewrite Hbase.
Qed.

Lemma basename_of_joined_path_witness :
  basename (os_path_join (lit "/srv/app") DEFAULT_FONT_FILENAME)
  = DEFAULT_FONT_FILENAME
  /\ font_not_found_msg (os_path_join (lit "/srv/app") DEFAULT_FONT_FILENAME)
     = lit "Error: Font file not found at '"
       ++ os_path_join (lit "/srv/app") DEFAULT_FONT_FILENAME
       ++ lit "'. Make sure '" ++ DEFAULT_FONT_FILENAME
       ++ lit "' is in the same directory as the script.".
Proof.
  apply (basename_of_joined_path (lit "/srv/app") DEFAULT_FONT_FILENAME).
  vm_compute. intuition discriminate.
Defined.

Lemma rstrip_char_snoc (ch : N) (s : str) :
  rstrip_char ch (s ++ [ch]) = rstrip_char ch s.
Proof.
  induction s as [|c s IH].
  - cbn. now rewrite N.eqb_refl.
  - cbn [app rstrip_char fold_right]. fold (rstrip_char ch (s ++ [ch])).
    fold (rstrip_char ch s). now rewrite IH.
Qed.

Lemma rstrip_char_fixed (ch : N) (s : str) :
  last s 0%N <> ch \/ s = [] -> rstrip_char ch s = s.
Proof.
  intros [Hlast | ->]; [|reflexivity].
  induction s as [|c s IH]; [reflexivity|].
  cbn [rstrip_char fold_right]. fold (rstrip_char ch s).
  destruct s as [|d s'].
  - cbn in *. destruct (N.eqb_spec c ch) as [Hc|Hc]; [contradiction|reflexivity].
  - rewrite IH by exact Hlast. reflexivity.
Qed.

Lemma rstrip_char_nil (ch : N) (s : str) :
  rstrip_char ch s = [] -> forallb (N.eqb ch) s = true.
Proof.
  induction s as [|c s IH]; [reflexivity|].
  cbn [rstrip_char fold_right forallb]. fold (rstrip_char ch s).
  destruct (rstrip_char ch s) as [|d kept]; [|discriminate].
  destruct (N.eqb_spec c ch) as [->|Hc]; [|discriminate].
  intros _. rewrite N.eqb_refl. now apply IH.
Qed.

Lemma rstrip_char_last (ch : N) (s : str) :
  rstrip_char ch s <> [] -> last (rstrip_char ch s) 0%N <> ch.
Proof.
  induction s as [|c s IH]; [intros H; now contradiction H|].
  cbn [rstrip_char fold_right]. fold (rstrip_char ch s).
  destruct (rstrip_char ch s) as [|d kept] eqn:E.
  - destruct (N.eqb_spec c ch) as [->|Hc]; [intros H; now contradiction H|].
    intros _. exact Hc.
  - intros _. apply IH. discriminate.
Qed.

(** What [os.path.dirname] can give: nothing, slashes only, or a path
    that does not end with a slash. *)
Lemma dirname_shape (p : str) :
  dirname p = []
  \/ (dirname p <> [] /\ forallb (N.eqb 47) (dirname p) = true)
  \/ (dirname p <> [] /\ last (dirname p) 0%N <> 47%N).
Proof.
  unfold dirname. cbv zeta.
  destruct (firstn (length p - length (basename p)) p) as [|c head] eqn:E;
    [now left|].
  destruct (forallb (N.eqb 47) (c :: head)) eqn:Hall.
  - right. left. split; [discriminate|exact Hall].
  - right. right.
    assert (Hne : rstrip_char 47 (c :: head) <> []).
    { intros Hnil. apply rstrip_char_nil in Hnil. congruence. }
    split; [exact Hne|]. now apply rstrip_char_last.
Qed.

(** X13.  The font is looked for in the directory of the script: for a
    file name without a slash, the directory of the path joined from
    [os.path.dirname(__file__)] and that name is [os.path.dirname(__file__)]
    again, so the directory the missing-font notice prints is the one that
    is searched. *)
Theorem font_is_sought_beside_the_script (file name : str) :
  ~ In 47%N name ->
  dirname (os_path_join (dirname file) name) = dirname file.
Proof.
  intros Hno.
  assert (Hstart : startswith_sep name = false).
  { destruct (startswith_sep name) eqn:H; [|reflexivity].
    exfalso. now apply Hno, startswith_sep_in. }
  pose proof (basename_joined (dirname file) name Hno) as Hbase.
  pose proof (dirname_shape file) as Hshape.
  remember (dirname file) as d eqn:Hd0. clear Hd0 file.
  unfold os_path_join in *. rewrite Hstart in *.
  destruct Hshape as [Hd | [[Hne Hall] | [Hne Hlast]]].
  - rewrite Hd in *. cbn [length Nat.eqb orb app] in *.
    unfold dirname. rewrite Hbase, Nat.sub_diag. reflexivity.
  - assert (Hend : endswith_sep d = true).
    { destruct d as [|c rest]; [contradiction|]. unfold endswith_sep.
      rewrite forallb_forall in Hall. rewrite N.eqb_sym. apply Hall.
      destruct (exists_last (l := c :: rest)) as [l' [x Heq]]; [discriminate|].
      rewrite Heq, last_last. apply in_or_app. right. now left. }
    rewrite Hend, orb_true_r in *.
    unfold dirname. rewrite Hbase, length_app, Nat.add_sub.
    rewrite firstn_app, Nat.sub_diag, firstn_all. cbn [firstn]. rewrite app_nil_r.
    destruct d as [|c rest]; [contradiction|]. now rewrite Hall.
  - assert (Hend : endswith_sep d = false).
    { destruct d as [|c rest]; [reflexivity|]. unfold endswith_sep.
      now apply N.eqb_neq. }
    assert (Hlen : (length d =? 0)%nat = false).
    { destruct d; [contradiction|reflexivity]. }
    rewrite Hend, Hlen in *. cbn [orb] in *.
    unfold dirname. rewrite Hbase, length_app. cbn [length].
    replace (length d + S (length name) - length name)%nat
      with (length d + 1)%nat by lia.
    change (d ++ 47%N :: name) with (d ++ [47%N] ++ name).
    rewrite app_assoc.
    rewrite firstn_app, length_app. cbn [length].
    rewrite Nat.sub_diag. cbn [firstn]. rewrite app_nil_r.
    rewrite firstn_all2 by (rewrite length_app; cbn [length]; lia).
    assert (Hnot : forallb (N.eqb 47) (d ++ [47%N]) = false).
    { apply not_true_is_false. intros Hall. rewrite forallb_forall in Hall.
      apply Hlast. symmetry. apply N.eqb_eq. apply Hall.
      apply in_or_app. left.
      destruct d as [|c rest]; [contradiction|].
      destruct (exists_last (l := c :: rest)) as [l' [x Heq]]; [discriminate|].
      rewrite Heq, last_last. apply in_or_app. right. now left. }
    destruct (d ++ [47%N]) as [|c rest] eqn:E.
    { destruct d; discriminate E. }
    rewrite Hnot, <- E, rstrip_char_snoc.
    apply rstrip_char_fixed. now left.
Qed.

Lemma font_is_sought_beside_the_script_witness :
  dirname (os_path_join (dirname (lit "/app/pixel_app.py")) DEFAULT_FONT_FILENAME)
  = dirname (lit "/app/pixel_app.py").
Proof.
  apply (font_is_sought_beside_the_script (lit "/app/pixel_app.py")
           DEFAULT_FONT_FILENAME).
  vm_compute. intuition discriminate.
Defined.

(** ** What the page shows *)

Lemma renderer_starts_with_the_font
    (lib : Pillow) (text font_path : str) (font_size : Z)
    (text_color bg_color : RGBA) :
  exists rest,
    snd (text_to_true_pixel_art lib text font_path font_size text_color bg_color [])
    = Called (ImageFont_truetype_call font_path font_size) :: rest.
Proof.
  destruct (text_to_true_pixel_art lib text font_path font_size
              text_color bg_color []) as [o t'] eqn:Hrun.
  destruct (run_path_inv lib _ _ _ _ _ [] _ t' Hrun) as [evs [-> Hp]].
  cbn [snd app]. destruct Hp; unfold prelude; cbn [app]; eexists; reflexivity.
Qed.

Lemma none_comes_with_an_error
    (lib : Pillow) (text font_path : str) (font_size : Z)
    (text_color bg_color : RGBA) (evs : list event) :
  text_to_true_pixel_art lib text font_path font_size text_color bg_color []
  = (Return None, evs) ->
  exists msg, In (St_error msg) evs.
Proof.
  intros Hrun.
  destruct (run_path_inv lib _ _ _ _ _ [] _ evs Hrun) as [evs' [-> Hp]].
  cbn [app]. inversion Hp; subst.
  - eexists. right. left. reflexivity.
  - eexists. unfold prelude. cbn [app]. do 4 right.
    apply in_or_app. right. left. reflexivity.
Qed.

Lemma existsb_map_rendering (f : widget -> bool) (evs : list event) :
  (forall ev, f (Rendering ev) = false) ->
  existsb f (map Rendering evs) = false.
Proof.
  intros Hf. induction evs as [|ev evs IH]; [reflexivity|].
  cbn. now rewrite Hf, IH.
Qed.

Section ScriptFacts.

Variable unicode_isalnum : N -> bool.
Variable host : Host.
Variable lib : Pillow.

Local Abbreviation page := (snd (script unicode_isalnum host lib)).
Local Abbreviation way_out := (fst (script unicode_isalnum host lib)).
Local Abbreviation rendering :=
  (text_to_true_pixel_art lib (text_box host) (font_file_path host)
     DEFAULT_FONT_SIZE text_color_input DEFAULT_BG_COLOR []).

(** X14.  The existence check gates everything: the text box is put on
    the page exactly when the font file exists, and the renderer runs
    exactly when the font file exists and the text box is not empty. *)
Theorem font_check_gates_the_renderer :
  existsb is_text_input page = os_path_exists host (font_file_path host)
  /\ existsb is_rendering page
     = os_path_exists host (font_file_path host)
       && negb (length (text_box host) =? 0)%nat.
Proof.
  unfold script.
  destruct (os_path_exists host (font_file_path host)); cbn [negb andb];
    [|split; reflexivity].
  destruct (text_box host) as [|c rest] eqn:Htext; [split; reflexivity|].
  cbn [length Nat.eqb negb].
  destruct (renderer_starts_with_the_font lib (c :: rest) (font_file_path host)
              DEFAULT_FONT_SIZE text_color_input DEFAULT_BG_COLOR) as [evs' Hevs].
  destruct (text_to_true_pixel_art lib (c :: rest) (font_file_path host)
              DEFAULT_FONT_SIZE text_color_input DEFAULT_BG_COLOR [])
    as [o evs].
  cbn [snd] in Hevs. subst evs.
  assert (Hno : existsb is_text_input
                  (map Rendering
                     (Called (ImageFont_truetype_call (font_file_path host)
                                DEFAULT_FONT_SIZE) :: evs')) = false)
    by now apply existsb_map_rendering.
  destruct o as [[pixel_image|]|e]; cbn [snd].
  - unfold show_image. destruct (save_png host pixel_image); cbn [snd];
      rewrite !existsb_app, Hno; split; reflexivity.
  - rewrite !existsb_app, Hno. split; reflexivity.
  - rewrite !existsb_app, Hno. split; reflexivity.
Qed.

(** X15.  A download is offered exactly when the font file exists, the
    text is not empty, the renderer returned an image and the PNG encoder
    accepted it; the button then carries the encoding of that very image,
    which is also the image shown, under the derived name with [".png"]. *)
Theorem download_is_the_rendered_image
    (label : str) (data : list byte) (name mime : str) :
  In (Download_button label data name mime) page
  <-> os_path_exists host (font_file_path host) = true
      /\ text_box host <> []
      /\ label = lit "Download Image (.png)"
      /\ name = file_name unicode_isalnum (text_box host)
      /\ mime = lit "image/png"
      /\ exists pixel_image caption,
          fst rendering = Return (Some pixel_image)
          /\ save_png host pixel_image = Return data
          /\ In (Image_shown pixel_image caption (lit "auto") (lit "PNG")) page.
Proof.
  assert (Hmap : forall evs w, In w (map Rendering evs) -> is_rendering w = true).
  { intros evs w Hin. apply in_map_iff in Hin as [ev [<- _]]. reflexivity. }
  unfold script.
  destruct (os_path_exists host (font_file_path host)); cbn [negb].
  2:{ split.
      - cbn [snd]. intros Hin. apply in_app_or in Hin as [Hin | Hin];
          cbn in Hin; intuition discriminate.
      - intros [H _]. discriminate H. }
  destruct (text_box host) as [|c rest] eqn:Htext.
  { split.
    - cbn [snd]. intros Hin. repeat (apply in_app_or in Hin as [Hin | Hin]);
        cbn in Hin; intuition discriminate.
    - intros [_ [H _]]. now contradiction H. }
  destruct (text_to_true_pixel_art lib (c :: rest) (font_file_path host)
              DEFAULT_FONT_SIZE text_color_input DEFAULT_BG_COLOR [])
    as [o evs].
  cbn [fst].
  destruct o as [[pixel_image|]|e].
  - unfold show_image. destruct (save_png host pixel_image) as [byte_im|e] eqn:Hsave;
      cbn [snd]; split.
    + intros Hin. rewrite !in_app_iff in Hin.
      destruct Hin as [[Hin | Hin] | [Hin | [[Hin | Hin] | Hin]]];
        try (cbn in Hin; intuition discriminate);
        try (apply Hmap in Hin; discriminate Hin).
      cbn in Hin. destruct Hin as [Hin | []]. injection Hin as <- <- <- <-.
      split; [reflexivity|]. split; [discriminate|].
      split; [reflexivity|]. split; [reflexivity|]. split; [reflexivity|].
      eexists pixel_image, _. split; [reflexivity|]. split; [exact Hsave|].
      rewrite !in_app_iff. right. right. left. left.
      cbn. right. right. left. reflexivity.
    + intros [_ [_ [-> [-> [-> [img [caption [Himg [Hdata _]]]]]]]]].
      injection Himg as <-. rewrite Hsave in Hdata. injection Hdata as <-.
      rewrite !in_app_iff. right. right. left. right. now left.
    + intros Hin. rewrite !in_app_iff in Hin.
      destruct Hin as [[Hin | Hin] | [Hin | Hin]];
        try (cbn in Hin; intuition discriminate);
        try (apply Hmap in Hin; discriminate Hin).
    + intros [_ [_ [_ [_ [_ [img [caption [Himg [Hdata _]]]]]]]]].
      injection Himg as <-. rewrite Hsave in Hdata. discriminate Hdata.
  - cbn [snd]. split.
    + intros Hin. rewrite !in_app_iff in Hin.
      destruct Hin as [[Hin | Hin] | [Hin | Hin]];
        try (cbn in Hin; intuition discriminate);
        try (apply Hmap in Hin; discriminate Hin).
    + intros [_ [_ [_ [_ [_ [img [caption [Himg _]]]]]]]]. discriminate Himg.
  - cbn [snd]. split.
    + intros Hin. rewrite !in_app_iff in Hin.
      destruct Hin as [[Hin | Hin] | Hin];
        try (cbn in Hin; intuition discriminate);
        try (apply Hmap in Hin; discriminate Hin).
    + intros [_ [_ [_ [_ [_ [img [caption [Himg _]]]]]]]]. discriminate Himg.
Qed.

End ScriptFacts.

Section ScriptEndings.

Variable unicode_isalnum : N -> bool.
Variable host : Host.
Variable lib : Pillow.

Local Abbreviation page := (snd (script unicode_isalnum host lib)).
Local Abbreviation way_out := (fst (script unicode_isalnum host lib)).
Local Abbreviation rendering :=
  (text_to_true_pixel_art lib (text_box host) (font_file_path host)
     DEFAULT_FONT_SIZE text_color_input DEFAULT_BG_COLOR []).

(** X16.  How a run of the script ends.  It stops at [st.stop()] exactly
    when the font file is missing.  It is aborted by an exception exactly
    when the renderer lets one escape or the PNG encoder raises one: the
    script catches nothing.  It reaches its last line, and only then shows
    the footer, in every other case. *)
Theorem how_the_script_ends :
  (way_out = Stopped <-> os_path_exists host (font_file_path host) = false)
  /\ (forall e,
         way_out = Aborted e
         <-> os_path_exists host (font_file_path host) = true
             /\ text_box host <> []
             /\ (fst rendering = Raise e
                 \/ exists pixel_image,
                     fst rendering = Return (Some pixel_image)
                     /\ save_png host pixel_image = Raise e))
  /\ (way_out = Finished <-> existsb is_footer page = true).
Proof.
  unfold script.
  destruct (os_path_exists host (font_file_path host)); cbn [negb].
  2:{ cbn [fst snd]. split; [tauto|]. split.
      - intros e. split; [discriminate|]. intros [H _]. discriminate H.
      - rewrite existsb_app. split; discriminate. }
  destruct (text_box host) as [|c rest] eqn:Htext.
  { cbn [fst snd]. split; [split; discriminate|]. split.
    - intros e. split; [discriminate|]. intros [_ [H _]]. now contradiction H.
    - rewrite !existsb_app. cbn. rewrite ?orb_true_r. tauto. }
  destruct (text_to_true_pixel_art lib (c :: rest) (font_file_path host)
              DEFAULT_FONT_SIZE text_color_input DEFAULT_BG_COLOR [])
    as [o evs].
  assert (Hmap : existsb is_footer (map Rendering evs) = false)
    by now apply existsb_map_rendering.
  cbn [fst].
  destruct o as [[pixel_image|]|e0].
  - unfold show_image.
    destruct (save_png host pixel_image) as [byte_im|e0] eqn:Hsave; cbn [fst snd].
    + split; [split; discriminate|]. split.
      * intros e. split; [discriminate|].
        intros [_ [_ [H | [img [Himg Hraise]]]]]; [discriminate H|].
        injection Himg as <-. rewrite Hsave in Hraise. discriminate Hraise.
      * rewrite !existsb_app. cbn. rewrite ?orb_true_r. tauto.
    + split; [split; discriminate|]. split.
      * intros e. split.
        -- intros [= <-]. split; [reflexivity|]. split; [discriminate|].
           right. now exists pixel_image.
        -- intros [_ [_ [H | [img [Himg Hraise]]]]]; [discriminate H|].
           injection Himg as <-. rewrite Hsave in Hraise. now injection Hraise as <-.
      * rewrite !existsb_app, Hmap. cbn. split; discriminate.
  - cbn [fst snd]. split; [split; discriminate|]. split.
    + intros e. split; [discriminate|].
      intros [_ [_ [H | [img [Himg _]]]]]; discriminate.
    + rewrite !existsb_app. cbn. rewrite ?orb_true_r. tauto.
  - cbn [fst snd]. split; [split; discriminate|]. split.
    + intros e. split.
      * intros [= <-]. split; [reflexivity|]. split; [discriminate|]. now left.
      * intros [_ [_ [H | [img [Himg _]]]]]; [now injection H as <-|discriminate].
    + rewrite !existsb_app, Hmap. cbn. split; discriminate.
Qed.

(** X17.  A run that accepted a text and reached its last line never ends
    silently: the page shows either the image together with its download
    button, or an error notice of the renderer. *)
Theorem finished_run_shows_image_or_error :
  way_out = Finished ->
  text_box host <> [] ->
  (exists pixel_image caption data,
      In (Image_shown pixel_image caption (lit "auto") (lit "PNG")) page
      /\ In (Download_button (lit "Download Image (.png)") data
               (file_name unicode_isalnum (text_box host)) (lit "image/png"))
            page)
  \/ exists msg, In (Rendering (St_error msg)) page.
Proof.
  unfold script.
  destruct (os_path_exists host (font_file_path host)); cbn [negb];
    [|discriminate].
  destruct (text_box host) as [|c rest] eqn:Htext; [intros _ H; now contradiction H|].
  destruct (text_to_true_pixel_art lib (c :: rest) (font_file_path host)
              DEFAULT_FONT_SIZE text_color_input DEFAULT_BG_COLOR [])
    as [o evs] eqn:Hrun.
  destruct o as [[pixel_image|]|e0].
  - unfold show_image.
    destruct (save_png host pixel_image) as [byte_im|e0]; cbn [fst snd];
      [|discriminate].
    intros _ _. left. eexists pixel_image, _, byte_im. split.
    + rewrite !in_app_iff. right. right. left. left.
      cbn. right. right. left. reflexivity.
    + rewrite !in_app_iff. right. right. left. right. now left.
  - cbn [fst snd]. intros _ _. right.
    destruct (none_comes_with_an_error lib _ _ _ _ _ evs Hrun) as [msg Hmsg].
    exists msg. rewrite !in_app_iff. right. left. now apply in_map.
  - discriminate.
Qed.

(** X18.  A font file that exists but cannot be opened is reported as not
    found: the script passes its existence check, the renderer's handler
    tells the user to make sure the default font file is in the directory
    of the script, nothing is drawn or offered, and the script reaches its
    footer. *)
Theorem unreadable_font_is_reported_as_missing :
  os_path_exists host (font_file_path host) = true ->
  text_box host <> [] ->
  truetype lib (font_file_path host) DEFAULT_FONT_SIZE = Raise IOError ->
  script unicode_isalnum host lib
  = (Finished,
     (page_header ++ [Text_input (lit "Enter text:") (lit "Hello Pixel World!")])
     ++ [Rendering (Called (ImageFont_truetype_call (font_file_path host)
                              DEFAULT_FONT_SIZE));
         Rendering (St_error
                      (lit "Error: Font file not found at '" ++ font_file_path host
                       ++ lit "'. Make sure '" ++ DEFAULT_FONT_FILENAME
                       ++ lit "' is in the same directory as the script."))]
     ++ page_footer).
Proof.
  intros Hexists Htext Hfont. unfold script. rewrite Hexists. cbn [negb].
  destruct (text_box host) as [|c rest]; [now contradiction Htext|].
  rewrite (run_font_missing lib _ _ _ _ _ [] Hfont). cbn [app map].
  unfold font_not_found_msg, font_file_path.
  rewrite basename_joined; [reflexivity|].
  vm_compute. intuition discriminate.
Qed.

End ScriptEndings.

Lemma finished_run_shows_image_or_error_witness :
  (exists pixel_image caption data,
      In (Image_shown pixel_image caption (lit "auto") (lit "PNG"))
         (snd (script (fun _ => false) (Desk.host (lit "a b"))
                 (Bitmap.pillow Bitmap.current)))
      /\ In (Download_button (lit "Download Image (.png)") data
               (file_name (fun _ => false) (text_box (Desk.host (lit "a b"))))
               (lit "image/png"))
            (snd (script (fun _ => false) (Desk.host (lit "a b"))
                    (Bitmap.pillow Bitmap.current))))
  \/ exists msg,
      In (Rendering (St_error msg))
         (snd (script (fun _ => false) (Desk.host (lit "a b"))
                 (Bitmap.pillow Bitmap.current))).
Proof.
  apply (finished_run_shows_image_or_error (fun _ => false)
           (Desk.host (lit "a b")) (Bitmap.pillow Bitmap.current)).
  - reflexivity.
  - discriminate.
Defined.

Lemma unreadable_font_is_reported_as_missing_witness :
  script (fun _ => false) (Desk.host (lit "a b")) Desk.unreadable
  = (Finished,
     (page_header ++ [Text_input (lit "Enter text:") (lit "Hello Pixel World!")])
     ++ [Rendering (Called (ImageFont_truetype_call
                              (font_file_path (Desk.host (lit "a b")))
                              DEFAULT_FONT_SIZE));
         Rendering (St_error
                      (lit "Error: Font file not found at '"
                       ++ font_file_path (Desk.host (lit "a b"))
                       ++ lit "'. Make sure '" ++ DEFAULT_FONT_FILENAME
                       ++ lit "' is in the same directory as the script."))]
     ++ page_footer).
Proof.
  apply (unreadable_font_is_reported_as_missing (fun _ => false)
           (Desk.host (lit "a b")) Desk.unreadable).
  - reflexivity.
  - discriminate.
  - reflexivity.
Defined.
